(** * eventgridCreateBinaryStreamMetadata: the upload notifier

    A shallow embedding of the Azure Event Grid function of this repository
    ([index.js], and its earlier near-duplicate with the hard-coded storage
    account) and the properties of its specification.

    Conventions of the embedding.
    - JavaScript strings are [string]s; [toLowerCase] folds the letters A-Z,
      which is what ECMAScript does on ASCII text.
    - An object is an association list whose order is the [for ... in]
      enumeration order.  Of the members of [Object.prototype] the one the
      code calls, [hasOwnProperty], is modelled, with its shadowing by an
      own property of that name; the others are not.
    - [context.log], [context.done], the storage query and the HTTP request
      are recorded as a trace of [Action]s.  The replies of the storage
      service and of the REST server are inputs ([World]); a callback's
      actions follow those of the code that registered it.
    - [JSON.parse] is a parameter of the development; whether
      [http.request] accepts the request, and whether a response comes, is
      part of the server's reply.
    - [isDebugEnabled] is initialised to [false] and never assigned: the
      branches it guards are not reachable and are left out. *)

From Stdlib Require Import String Ascii List Bool Arith ZArith Lia.
From Stdlib Require Import QArith_base.
Import ListNotations.
Local Close Scope Q_scope.
Local Open Scope string_scope.
Local Open Scope list_scope.

Set Warnings "-register-all".

(** ** JavaScript strings *)

Module JsString.

(** [s.startsWith(p)]; also the test at each position of a search. *)
Fixpoint startsWith (p s : string) : bool :=
  match p, s with
  | EmptyString, _ => true
  | String _ _, EmptyString => false
  | String a p', String b s' => Ascii.eqb a b && startsWith p' s'
  end.

Fixpoint drop (n : nat) (s : string) : string :=
  match n, s with
  | O, _ => s
  | S _, EmptyString => EmptyString
  | S n', String _ s' => drop n' s'
  end.

(** [s.includes(p)], equivalently [s.indexOf(p) !== -1]. *)
Fixpoint includes (p s : string) : bool :=
  startsWith p s ||
  match s with
  | EmptyString => false
  | String _ s' => includes p s'
  end.

(** [s.replace(p, r)] for a string pattern [p]: the first occurrence of
    [p], wherever it is, is replaced; later occurrences are kept. *)
Fixpoint replace (p r s : string) : string :=
  if startsWith p s then r ++ drop (String.length p) s
  else match s with
       | EmptyString => EmptyString
       | String c s' => String c (replace p r s')
       end.

Definition lowerChar (c : ascii) : ascii :=
  let n := nat_of_ascii c in
  if ((65 <=? n) && (n <=? 90))%nat then ascii_of_nat (n + 32) else c.

Fixpoint toLowerCase (s : string) : string :=
  match s with
  | EmptyString => EmptyString
  | String c s' => String (lowerChar c) (toLowerCase s')
  end.

(** [s.split(sep)] for a one-character separator: never empty, one more
    segment than there are separators. *)
Fixpoint split (sep : ascii) (s : string) : list string :=
  match s with
  | EmptyString => [EmptyString]
  | String c s' =>
      if Ascii.eqb c sep then EmptyString :: split sep s'
      else match split sep s' with
           | [] => [String c EmptyString]
           | seg :: rest => String c seg :: rest
           end
  end.

End JsString.

(** ** Objects *)

Section Objects.

Variable V : Type.

Definition Obj := list (string * V).

(** [o[k]], [None] standing for [undefined]. *)
Fixpoint lookup (o : Obj) (k : string) : option V :=
  match o with
  | [] => None
  | (k', v) :: o' => if String.eqb k' k then Some v else lookup o' k
  end.

(** [o[k] = v]: an existing property keeps its place, a new one comes
    last. *)
Fixpoint set (o : Obj) (k : string) (v : V) : Obj :=
  match o with
  | [] => [(k, v)]
  | (k', v') :: o' =>
      if String.eqb k' k then (k', v) :: o' else (k', v') :: set o' k v
  end.

(** [delete o[k]] *)
Definition delete (o : Obj) (k : string) : Obj :=
  filter (fun p => negb (String.eqb (fst p) k)) o.

Definition hasOwnProperty (o : Obj) (k : string) : bool :=
  existsb (fun p => String.eqb (fst p) k) o.

Definition keys (o : Obj) : list string := map fst o.

End Objects.

Arguments lookup {V} o k.
Arguments set {V} o k v.
Arguments delete {V} o k.
Arguments hasOwnProperty {V} o k.
Arguments keys {V} o.

(** ** Values *)

Inductive JSValue : Type :=
| JSUndefined
| JSNull
| JSBool (b : bool)
| JSNumber (q : Q)
| JSString (s : string)
| JSArray (items : list JSValue)
| JSObject (props : list (string * JSValue)).

(** ToBoolean *)
Definition truthy (v : JSValue) : bool :=
  match v with
  | JSUndefined | JSNull => false
  | JSBool b => b
  | JSNumber q => negb (Qnum q =? 0)%Z
  | JSString s => negb (String.eqb s EmptyString)
  | JSArray _ | JSObject _ => true
  end.

(** [v.k] for a [v] that is neither [undefined] nor [null].  The names read
    by the handler are ["response"] and ["status"], which only an object can
    have. *)
Definition prop (v : JSValue) (k : string) : JSValue :=
  match v with
  | JSObject props =>
      match lookup props k with Some x => x | None => JSUndefined end
  | _ => JSUndefined
  end.

(** A value that is a string or [undefined]. *)
Definition ofStr (o : option string) : JSValue :=
  match o with Some s => JSString s | None => JSUndefined end.

Definition truthyStr (o : option string) : bool := truthy (ofStr o).

(** [x ? x : d] *)
Definition orElse (o d : option string) : option string :=
  if truthyStr o then o else d.

(** String concatenation with a string-or-undefined operand. *)
Definition toStr (o : option string) : string :=
  match o with Some s => s | None => "undefined" end.

(** [x ? x : d] where [d] is a string. *)
Definition orElseStr (o : option string) (d : string) : string :=
  if truthyStr o then toStr o else d.

(** [a.pop()]: the element removed, and what is left of the array. *)
Definition pop (a : list string) : option string * list string :=
  match a with
  | [] => (None, [])
  | _ :: _ => (Some (last a EmptyString), removelast a)
  end.

(** ** The data of an invocation *)

Record EventData := { contentLength : JSValue; url : string }.

Record EventGridEvent := { subject : string; data : EventData }.

(** [context.bindingData.invocationId] is all the handler reads of its
    context; [context.log] and [context.done] are [Action]s. *)
Record Context := { invocationId : string }.

(** What [blobService.getBlobMetadata] hands to its callback. *)
Record BlobMetadataResult := { name : string; metadata : Obj string }.

(** One element of [clientAttributes.taskId.values]. *)
Record TaskIdValue := { locale : string; source : string; value : string }.

(** The descriptor.  [taskId] is the one element of
    [clientAttributes.taskId.values]; the other three fields are those of
    its [binaryStreamObject] member. *)
Record BinaryStreamObject := {
  taskId : TaskIdValue;
  objectId : string;
  objectType : string;
  properties : Obj JSValue
}.

Record RequestOptions := {
  protocol : string;
  host : option string;
  port : option string;
  path : string;
  method : string;
  headers : Obj (option string)
}.

Inductive Exn := SyntaxError | TypeError | NetworkError.

Inductive Completion (A : Type) :=
| Value (a : A)
| Thrown (e : Exn).

Arguments Value {A} a.
Arguments Thrown {A} e.

Inductive Action :=
| Log (msg : string) (args : list JSValue)
| LogError (msg : string)
| Done (err : option string)
| CreateBlobService (creds : option string)
| GetBlobMetadata (containerName blobName : option string)
| HttpRequest (options : RequestOptions) (body : BinaryStreamObject)
| Uncaught (e : Exn).

Inductive StorageReply :=
| FetchFailed (error : string)
| FetchOk (blobMetadataResult : option BlobMetadataResult).

(** What becomes of the request.  [http.request] may throw before anything
    is sent (a path with a space or a control character, a header without
    a value); the request may fail without a response, an ['error'] event
    for which the code has no listener; otherwise there is a response,
    which either fails or ends, after its body arrived in chunks. *)
Inductive HttpReply :=
| RequestThrows
| RequestError (e : string)
| ResponseError (e : string)
| ResponseEnd (statusCode : Z) (chunks : list string).

Record World := {
  JSON_parse : string -> option JSValue;
  processEnv : Obj string;
  storageReply : StorageReply;
  httpReply : HttpReply
}.

(** ** The functions shared by the two handlers *)

Definition TASK_ID_METADATA_PROPERTY : string := "x-rdp-taskid".
Definition RDP_ESCAPING_PREFIX : string := "x_rdp_".
Definition RDP_PREFIX : string := "x-rdp-".

(** The key under which [getBlobMetadata] stores the value of
    [metadataKey]. *)
Definition normalizeKey (metadataKey : string) : string :=
  JsString.toLowerCase
    (JsString.replace RDP_ESCAPING_PREFIX RDP_PREFIX metadataKey).

(** One turn of the loop of [getBlobMetadata], and the loop. *)
Definition normalizeStep (blobMetadata : Obj string) (p : string * string)
  : Obj string :=
  set blobMetadata (normalizeKey (fst p)) (snd p).

Definition normalize (incomingBlobMetaData : Obj string) : Obj string :=
  fold_left normalizeStep incomingBlobMetaData [].

Definition getBlobMetadata (blobMetadataResult : BlobMetadataResult)
  : Obj string :=
  normalize (metadata blobMetadataResult).

Definition getPropertyValueFromMetadata (blobMetadata : Obj string)
  (propertyName : string) (defaultValue : option string) : option string :=
  if truthyStr (lookup blobMetadata propertyName)
  then lookup blobMetadata propertyName
  else defaultValue.

Definition createRequestHeaders (envConfig blobMetadata : Obj string)
  : Obj (option string) :=
  let tenantId := lookup blobMetadata "x-rdp-tenantid" in
  let clientId :=
    getPropertyValueFromMetadata blobMetadata "x-rdp-clientid"
      (lookup envConfig "defaultClientId") in
  let headers :=
    [ ("Content-Type", Some "application/json");
      ("x-rdp-version", Some "8.1");
      ("x-rdp-clientId", clientId);
      ("x-rdp-tenantId", tenantId);
      ("x-rdp-userId",
        orElse (lookup blobMetadata "x-rdp-userid")
               (lookup envConfig "defaultUserId"));
      ("x-rdp-userRoles",
        orElse (lookup blobMetadata "x-rdp-userroles")
               (lookup envConfig "defaultUserRoles")) ] in
  if truthyStr (lookup blobMetadata "x-rdp-ownershipdata")
  then set headers "x-rdp-ownershipData"
         (lookup blobMetadata "x-rdp-ownershipdata")
  else headers.

(** [headers[k]] *)
Definition header (headers : Obj (option string)) (k : string)
  : option string :=
  match lookup headers k with Some v => v | None => None end.

(** The object literal assigned to [binaryStreamObject.properties]. *)
Definition initialProperties (eventGridEvent : EventGridEvent)
  (blobObjectKey assignedOriginalFileName : string)
  (headers : Obj (option string)) : Obj JSValue :=
  [ ("objectKey", JSString blobObjectKey);
    ("originalFileName", JSString assignedOriginalFileName);
    ("fullObjectPath", JSString blobObjectKey);
    ("contentSize", contentLength (data eventGridEvent));
    ("user", ofStr (header headers "x-rdp-userId"));
    ("role", ofStr (header headers "x-rdp-userRoles")) ].

Definition addOwnershipData (headers : Obj (option string))
  (props : Obj JSValue) : Obj JSValue :=
  if truthyStr (header headers "x-rdp-ownershipData")
  then set props "ownershipData" (ofStr (header headers "x-rdp-ownershipData"))
  else props.

(** [props.hasOwnProperty(k)], called through [props] itself: once [props]
    has an own property named [hasOwnProperty], which the loop below can
    only have stored as a string, the call throws. *)
Definition callHasOwnProperty (props : Obj JSValue) (k : string)
  : Completion bool :=
  match lookup props "hasOwnProperty" with
  | Some _ => Thrown TypeError
  | None => Value (hasOwnProperty props k)
  end.

(** One turn of the loop that applies the metadata as properties.  The
    test is [!propertyName.includes('x-rdp') && !props.hasOwnProperty(...)]:
    the call is not made for a name that contains [x-rdp]. *)
Definition copyProperty (props : Obj JSValue) (p : string * string)
  : Completion (Obj JSValue) :=
  let propertyName := fst p in
  if negb (JsString.includes "x-rdp" propertyName) then
    match callHasOwnProperty props propertyName with
    | Thrown e => Thrown e
    | Value true => Value props
    | Value false => Value (set props propertyName (JSString (snd p)))
    end
  else Value props.

(** The loop: it stops at the first turn that throws. *)
Fixpoint applyMetadata (blobMetadata : Obj string) (props : Obj JSValue)
  : Completion (Obj JSValue) :=
  match blobMetadata with
  | [] => Value props
  | p :: rest =>
      match copyProperty props p with
      | Thrown e => Thrown e
      | Value props' => applyMetadata rest props'
      end
  end.

(** The metadata the loop enumerates: [originalfilename], when it holds a
    non-empty name, has been deleted from it. *)
Definition remainingMetadata (blobMetadata : Obj string) : Obj string :=
  if truthyStr (lookup blobMetadata "originalfilename")
  then delete blobMetadata "originalfilename"
  else blobMetadata.

(** [assignedOriginalFileName] *)
Definition assignedOriginalFileName (blobMetadataResult : BlobMetadataResult)
  : string :=
  if truthyStr (lookup (metadata blobMetadataResult) "originalfilename")
  then toStr (lookup (metadata blobMetadataResult) "originalfilename")
  else last (JsString.split "/" (name blobMetadataResult)) EmptyString.

(** The properties of the descriptor before the metadata are applied. *)
Definition declaredProperties (eventGridEvent : EventGridEvent)
  (blobMetadataResult : BlobMetadataResult) (headers : Obj (option string))
  : Obj JSValue :=
  addOwnershipData headers
    (initialProperties eventGridEvent (name blobMetadataResult)
       (assignedOriginalFileName blobMetadataResult) headers).

(** [taskId], as assigned before the descriptor is written. *)
Definition assignedTaskId (context : Context)
  (blobMetadataResult : BlobMetadataResult) : string :=
  orElseStr
    (lookup (remainingMetadata (metadata blobMetadataResult))
       "TASK_ID_METADATA_PROPERTY")
    (invocationId context).

(** [buildBinaryStreamObject] returns the descriptor, or throws from the
    loop; the second component is [blobMetadataResult] as the call leaves
    it in either case, since the function deletes from the metadata object
    it was given before the loop. *)
Definition buildBinaryStreamObject (context : Context)
  (eventGridEvent : EventGridEvent) (blobMetadataResult : BlobMetadataResult)
  (headers : Obj (option string))
  : Completion BinaryStreamObject * BlobMetadataResult :=
  let blobObjectKey := name blobMetadataResult in
  let invocationId := invocationId context in
  let assignedObjectId :=
    orElseStr (lookup (metadata blobMetadataResult) "binarystreamobjectid")
      invocationId in
  let blobMetadata := remainingMetadata (metadata blobMetadataResult) in
  let taskId := assignedTaskId context blobMetadataResult in
  (match applyMetadata blobMetadata
           (declaredProperties eventGridEvent blobMetadataResult headers) with
   | Thrown e => Thrown e
   | Value props =>
       Value {| taskId := {| locale := "en-US"; source := "internal";
                             value := taskId |};
                objectId := assignedObjectId;
                objectType := "binarystreamobject";
                properties := props |}
   end,
   {| name := blobObjectKey; metadata := blobMetadata |}).

Definition getHttpRequestOptions (envConfig : Obj string)
  (headers : Obj (option string)) : RequestOptions :=
  {| protocol := "http:";
     host := lookup envConfig "rdpHost";
     port := lookup envConfig "rdpPort";
     path := "/" ++ toStr (header headers "x-rdp-tenantId")
             ++ "/api/binarystreamobjectservice/create";
     method := "POST";
     headers := headers |}.

Definition restFailure : string :=
  "Fail to make REST api call to post the binary stream object.".

(** The value of [isSuccessfull] when the ['end'] listener has computed it,
    or what the listener throws before that. *)
Definition isSuccessfull (parse : string -> option JSValue)
  (statusCode : Z) (responseBody : string) : Completion bool :=
  if (statusCode =? 200)%Z && truthy (JSString responseBody) then
    match parse responseBody with
    | None => Thrown SyntaxError
    | Some responseJson =>
        if truthy responseJson then
          let response := prop responseJson "response" in
          if truthy response then
            let status := prop response "status" in
            if truthy status then
              match status with
              | JSString s =>
                  Value (String.eqb (JsString.toLowerCase s) "success")
              | _ => Thrown TypeError
              end
            else Value false
          else Value false
        else Value false
    end
  else Value false.

(** The ['end'] listener.  [logResponse] tells whether the response message
    is logged: under [isDebugEnabled] in [index.js], always in the earlier
    handler. *)
Definition onEnd (parse : string -> option JSValue) (logResponse : bool)
  (taskId : string) (statusCode : Z) (responseBody : string) : list Action :=
  (if logResponse && ((statusCode =? 200)%Z && truthy (JSString responseBody))
   then [Log ("Using taskId " ++ taskId ++ ", RDP API Response: "
              ++ responseBody) []]
   else [])
  ++ match isSuccessfull parse statusCode responseBody with
     | Thrown e => [Uncaught e]
     | Value true => [Done None]
     | Value false => [LogError restFailure; Done (Some restFailure)]
     end.

(** [responseBody] once every chunk has been appended to it. *)
Definition received (chunks : list string) : string :=
  fold_left String.append chunks EmptyString.

Definition postBinaryStreamObject (w : World) (logResponse : bool)
  (envConfig : Obj string) (headers : Obj (option string))
  (binaryStreamObject : BinaryStreamObject) : list Action :=
  let options := getHttpRequestOptions envConfig headers in
  match httpReply w with
  | RequestThrows => [Uncaught TypeError]
  | RequestError _ =>
      [HttpRequest options binaryStreamObject; Uncaught NetworkError]
  | ResponseError e =>
      let errorMsg := ("Error while calling REST API: " ++ e)%string in
      [HttpRequest options binaryStreamObject;
       LogError errorMsg; Done (Some errorMsg)]
  | ResponseEnd statusCode chunks =>
      HttpRequest options binaryStreamObject ::
      onEnd (JSON_parse w) logResponse
        (value (taskId binaryStreamObject)) statusCode (received chunks)
  end.

Definition isDebugEnabled : bool := false.

Definition missing (variable : string)
  : list Action * option (Obj string) :=
  let errorMsg :=
    ("Unable to locate environment variable " ++ variable)%string in
  ([LogError errorMsg; Done (Some errorMsg)], None).

(** [if (!process.env.X) { ... return null; }], and what follows it when
    the variable is set, to a non-empty string [v]. *)
Definition require (env : Obj string) (variable : string)
  (k : string -> list Action * option (Obj string))
  : list Action * option (Obj string) :=
  match lookup env variable with
  | Some v => if truthy (JSString v) then k v else missing variable
  | None => missing variable
  end.

(** ** [index.js] *)

Module Index.

Definition getEnvironmentConfiguration (env : Obj string)
  : list Action * option (Obj string) :=
  require env "StorageConStr" (fun _ =>
  require env "ENV_RDP_HOST" (fun rdpHost =>
  require env "ENV_RDP_PORT" (fun rdpPort =>
  require env "ENV_CLIENT_ID" (fun defaultClientId =>
  require env "ENV_DEFAULT_USER_ID" (fun defaultUserId =>
  require env "ENV_DEFAULT_USER_ROLES" (fun defaultUserRoles =>
    ([], Some [ ("rdpHost", rdpHost);
                ("rdpPort", rdpPort);
                ("defaultClientId", defaultClientId);
                ("defaultUserId", defaultUserId);
                ("defaultUserRoles", defaultUserRoles) ]))))))).

(** The callback given to [blobService.getBlobMetadata]. *)
Definition metadataCallback (w : World) (context : Context)
  (eventGridEvent : EventGridEvent) (envConfig : Obj string)
  (subjectVal : list string) (reply : StorageReply) : list Action :=
  match reply with
  | FetchFailed _ =>
      [Log "Error fetching metadata" [];
       Log "subjectVal: " [JSArray (map JSString subjectVal)];
       Done None]
  | FetchOk None => []
  | FetchOk (Some blobMetadataResult) =>
      let blobMetadata := getBlobMetadata blobMetadataResult in
      if truthyStr (lookup blobMetadata "x-rdp-tenantid") then
        let headers := createRequestHeaders envConfig blobMetadata in
        match fst (buildBinaryStreamObject context eventGridEvent
                     blobMetadataResult headers) with
        | Thrown e => [Uncaught e]
        | Value binaryStreamObject =>
            postBinaryStreamObject w isDebugEnabled envConfig headers
              binaryStreamObject
        end
      else [LogError "TenantId is not present in asset metadata"]
  end.

(** [module.exports].  The trace is what the function does before it
    returns, its closing [context.done()] included, then what the metadata
    callback does if the query was issued. *)
Definition handler (w : World) (context : Context)
  (eventGridEvent : EventGridEvent) : list Action :=
  let subjectVal := JsString.split "/" (subject eventGridEvent) in
  let '(started, later) :=
    if (List.length subjectVal =? 7)%nat then
      let containerName := nth_error subjectVal 4 in
      let '(fileBlobName, subjectVal) := pop subjectVal in
      let '(logged, envConfig) :=
        getEnvironmentConfiguration (processEnv w) in
      match envConfig with
      | Some envConfig =>
          if truthyStr (lookup envConfig "StorageConStr") then
            let StorageCreds := lookup envConfig "StorageConStr" in
            (logged ++ [CreateBlobService StorageCreds;
                        GetBlobMetadata containerName fileBlobName],
             metadataCallback w context eventGridEvent envConfig subjectVal
               (storageReply w))
          else (logged, [])
      | None => (logged, [])
      end
    else ([], [])
  in
  started ++ [Done None] ++ later.

End Index.

(** ** The earlier handler, with the storage account written in it *)

Module Variant.

Definition getEnvironmentConfiguration (env : Obj string)
  : list Action * option (Obj string) :=
  require env "ENV_RDP_HOST" (fun rdpHost =>
  require env "ENV_RDP_PORT" (fun rdpPort =>
  require env "ENV_CLIENT_ID" (fun defaultClientId =>
  require env "ENV_DEFAULT_USER_ID" (fun defaultUserId =>
  require env "ENV_DEFAULT_USER_ROLES" (fun defaultUserRoles =>
    ([], Some [ ("rdpHost", rdpHost);
                ("rdpPort", rdpPort);
                ("defaultClientId", defaultClientId);
                ("defaultUserId", defaultUserId);
                ("defaultUserRoles", defaultUserRoles) ])))))).

Definition metadataCallback (w : World) (context : Context)
  (eventGridEvent : EventGridEvent) (reply : StorageReply) : list Action :=
  match reply with
  | FetchFailed _ => [Log "Error fetching metadata" []]
  | FetchOk None => []
  | FetchOk (Some blobMetadataResult) =>
      let '(logged, envConfig) :=
        getEnvironmentConfiguration (processEnv w) in
      logged ++
      match envConfig with
      | Some envConfig =>
          let blobMetadata := getBlobMetadata blobMetadataResult in
          if truthyStr (lookup blobMetadata "x-rdp-tenantid") then
            let headers := createRequestHeaders envConfig blobMetadata in
            match fst (buildBinaryStreamObject context eventGridEvent
                         blobMetadataResult headers) with
            | Thrown e => [Uncaught e]
            | Value binaryStreamObject =>
                postBinaryStreamObject w true envConfig headers
                  binaryStreamObject
            end
          else []
      | None => []
      end
  end.

Definition handler (w : World) (context : Context)
  (eventGridEvent : EventGridEvent) : list Action :=
  let subjectVal := subject eventGridEvent in
  if negb (JsString.includes "/renditions/" subjectVal) then
    let fileBlobName :=
      fst (pop (JsString.split "/" (url (data eventGridEvent)))) in
    GetBlobMetadata (Some "rdp-media-assets-engg-az-qa5-rwtest") fileBlobName
    :: metadataCallback w context eventGridEvent (storageReply w)
  else [Log "objectKey has slash in it" []].

End Variant.

(** ** What a trace shows *)

Definition isFetch (a : Action) : bool :=
  match a with GetBlobMetadata _ _ => true | _ => false end.

Definition isHttpCall (a : Action) : bool :=
  match a with HttpRequest _ _ => true | _ => false end.

(** A network call is a storage query or an HTTP request. *)
Definition isNetworkCall (a : Action) : bool := isFetch a || isHttpCall a.

(** The invocation is failed by an error given to [context.done] or by an
    exception nobody catches. *)
Definition isFailure (a : Action) : bool :=
  match a with
  | Done (Some _) | Uncaught _ => true
  | _ => false
  end.

Definition isErrorLog (a : Action) : bool :=
  match a with LogError _ => true | _ => false end.

(** The variables [getEnvironmentConfiguration] of [index.js] tests. *)
Definition requiredVariables : list string :=
  [ "StorageConStr"; "ENV_RDP_HOST"; "ENV_RDP_PORT"; "ENV_CLIENT_ID";
    "ENV_DEFAULT_USER_ID"; "ENV_DEFAULT_USER_ROLES" ].

(** [responseJson.response.status] *)
Definition responseStatus (responseJson : JSValue) : JSValue :=
  prop (prop responseJson "response") "status".

(** The value [JSON.parse] gives for [{"response":{"status":s}}]. *)
Definition statusBody (s : string) : JSValue :=
  JSObject [("response", JSObject [("status", JSString s)])].

(** ** Sample inputs *)

Definition quote : string := String (ascii_of_nat 34) EmptyString.

(** The text [{"response":{"status":"s"}}]. *)
Definition statusText (s : string) : string :=
  ("{" ++ quote ++ "response" ++ quote ++ ":{" ++ quote ++ "status" ++ quote
   ++ ":" ++ quote ++ s ++ quote ++ "}}")%string.

(** The same text as the two chunks it may arrive in. *)
Definition sampleChunks (s : string) : list string :=
  [ ("{" ++ quote ++ "response" ++ quote ++ ":")%string;
    ("{" ++ quote ++ "status" ++ quote ++ ":" ++ quote ++ s ++ quote
     ++ "}}")%string ].

(** A reader of the two response texts of the examples, standing for
    [JSON.parse] there; it rejects every other text. *)
Definition sampleParse (text : string) : option JSValue :=
  if String.eqb text (statusText "Success") then Some (statusBody "Success")
  else if String.eqb text (statusText "failed") then Some (statusBody "failed")
  else None.

Definition sampleEnv : Obj string :=
  [ ("StorageConStr", "UseDevelopmentStorage=true");
    ("ENV_RDP_HOST", "rdp.example");
    ("ENV_RDP_PORT", "8085");
    ("ENV_CLIENT_ID", "client");
    ("ENV_DEFAULT_USER_ID", "system");
    ("ENV_DEFAULT_USER_ROLES", "admin") ].

Definition sampleConfig : Obj string :=
  [ ("rdpHost", "rdp.example");
    ("rdpPort", "8085");
    ("defaultClientId", "client");
    ("defaultUserId", "system");
    ("defaultUserRoles", "admin") ].

Definition sampleWorld (env : Obj string) (stored : StorageReply)
  (reply : HttpReply) : World :=
  {| JSON_parse := sampleParse;
     processEnv := env;
     storageReply := stored;
     httpReply := reply |}.

Definition sampleContext : Context := {| invocationId := "inv-1" |}.

Definition sampleEvent (subjectVal : string) : EventGridEvent :=
  {| subject := subjectVal;
     data := {| contentLength := JSNumber (Qmake 2048 1);
                url := "https://account.blob.core.windows.net/assets/photo.jpg" |} |}.

Definition sampleSubject : string :=
  "/blobServices/default/containers/assets/blobs/photo.jpg".

Definition sampleBlob (entries : Obj string) : BlobMetadataResult :=
  {| name := "photo.jpg"; metadata := entries |}.

Definition sampleDescriptor : BinaryStreamObject :=
  {| taskId := {| locale := "en-US"; source := "internal";
                  value := "inv-1" |};
     objectId := "inv-1";
     objectType := "binarystreamobject";
     properties := [("objectKey", JSString "photo.jpg")] |}.

(** A response has come, whether it failed or ended. *)
Definition isResponse (reply : HttpReply) : bool :=
  match reply with
  | ResponseError _ | ResponseEnd _ _ => true
  | RequestThrows | RequestError _ => false
  end.

(** ** Further observations *)

(** [context.done] in either form, or an exception nobody catches: what
    ends an invocation. *)
Definition isTerminal (a : Action) : bool :=
  match a with
  | Done _ | Uncaught _ => true
  | _ => false
  end.


(** Any use of the storage service. *)
Definition isStorageUse (a : Action) : bool :=
  match a with
  | CreateBlobService _ | GetBlobMetadata _ _ => true
  | _ => false
  end.

(** How many times a character occurs in a string. *)
Fixpoint countChar (c : ascii) (s : string) : nat :=
  match s with
  | EmptyString => 0
  | String a s' => (if Ascii.eqb a c then 1 else 0) + countChar c s'
  end.

(** The entries of the metadata that [getBlobMetadata] stores under [k]. *)
Definition normalizesTo (k : string) (p : string * string) : bool :=
  String.eqb (normalizeKey (fst p)) k.

(** An entry under its normalized key. *)
Definition renamed (p : string * string) : string * string :=
  (normalizeKey (fst p), snd p).

(** The message of [getEnvironmentConfiguration] for a variable. *)
Definition unableToLocate (variable : string) : string :=
  ("Unable to locate environment variable " ++ variable)%string.

(** The variables the earlier handler tests. *)
Definition variantVariables : list string :=
  [ "ENV_RDP_HOST"; "ENV_RDP_PORT"; "ENV_CLIENT_ID";
    "ENV_DEFAULT_USER_ID"; "ENV_DEFAULT_USER_ROLES" ].

(** The container the earlier handler queries. *)
Definition variantContainer : string := "rdp-media-assets-engg-az-qa5-rwtest".

(** The first of [variables], in their order, that the environment does
    not set to a non-empty string. *)
Definition firstMissing (variables : list string) (env : Obj string)
  : option string :=
  find (fun v => negb (truthyStr (lookup env v))) variables.

(** The configuration object built from the environment. *)
Definition configurationOf (env : Obj string) : Obj string :=
  [ ("rdpHost", toStr (lookup env "ENV_RDP_HOST"));
    ("rdpPort", toStr (lookup env "ENV_RDP_PORT"));
    ("defaultClientId", toStr (lookup env "ENV_CLIENT_ID"));
    ("defaultUserId", toStr (lookup env "ENV_DEFAULT_USER_ID"));
    ("defaultUserRoles", toStr (lookup env "ENV_DEFAULT_USER_ROLES")) ].

(** * Properties *)

(** ** Strings *)

Lemma startsWith_includes p s :
  JsString.startsWith p s = true -> JsString.includes p s = true.
Proof.
  intros H. destruct s; simpl; rewrite H; reflexivity.
Qed.

Lemma startsWith_app p q s :
  JsString.startsWith (p ++ q) s = true -> JsString.startsWith p s = true.
Proof.
  revert s. induction p as [|a p IH]; intros s H; [destruct s; reflexivity|].
  destruct s as [|b s]; simpl in *; [discriminate|].
  apply andb_true_iff in H as [Hab Hps].
  rewrite Hab. simpl. now apply IH.
Qed.

Lemma replace_absent p r s :
  JsString.includes p s = false -> JsString.replace p r s = s.
Proof.
  induction s as [|c s IH]; simpl; intros H;
    apply orb_false_iff in H as [Hp Hs]; rewrite Hp; [reflexivity|].
  now rewrite IH.
Qed.

Lemma lowerChar_idem c :
  JsString.lowerChar (JsString.lowerChar c) = JsString.lowerChar c.
Proof.
  destruct c as [[] [] [] [] [] [] [] []]; reflexivity.
Qed.

Lemma toLowerCase_idem s :
  JsString.toLowerCase (JsString.toLowerCase s) = JsString.toLowerCase s.
Proof.
  induction s as [|c s IH]; simpl; [reflexivity|].
  now rewrite lowerChar_idem, IH.
Qed.


(** ** Objects *)

Section ObjectFacts.

Variable V : Type.
Implicit Types (o : Obj V) (k : string) (v : V).

Lemma lookup_set_eq o k v : lookup (set o k v) k = Some v.
Proof.
  induction o as [|[k' v'] o IH]; simpl.
  - now rewrite String.eqb_refl.
  - destruct (String.eqb k' k) eqn:E; simpl; rewrite E; auto.
Qed.

Lemma lookup_set_ne o k k' v :
  k <> k' -> lookup (set o k v) k' = lookup o k'.
Proof.
  intros Hne. induction o as [|[k0 v0] o IH]; simpl.
  - apply String.eqb_neq in Hne. now rewrite Hne.
  - destruct (String.eqb k0 k) eqn:E; simpl.
    + apply String.eqb_eq in E. subst k0.
      apply String.eqb_neq in Hne. now rewrite Hne.
    + now rewrite IH.
Qed.

Lemma hasOwnProperty_false_lookup o k :
  hasOwnProperty o k = false -> lookup o k = None.
Proof.
  induction o as [|[k' v'] o IH]; simpl; [reflexivity|].
  intros H. apply orb_false_iff in H as [E Ho]. rewrite E. auto.
Qed.

Lemma hasOwnProperty_true_lookup o k :
  hasOwnProperty o k = true -> exists v, lookup o k = Some v.
Proof.
  induction o as [|[k' v'] o IH]; simpl; [discriminate|].
  destruct (String.eqb k' k); simpl; eauto.
Qed.

Lemma hasOwnProperty_keys o k :
  hasOwnProperty o k = true <-> In k (keys o).
Proof.
  induction o as [|[k' v'] o IH]; simpl; [split; [discriminate|tauto]|].
  rewrite orb_true_iff, IH, String.eqb_eq. reflexivity.
Qed.

Lemma lookup_delete_ne o k k' :
  k <> k' -> lookup (delete o k) k' = lookup o k'.
Proof.
  intros Hne. induction o as [|[k0 v0] o IH]; simpl; [reflexivity|].
  destruct (String.eqb k0 k) eqn:E; simpl.
  - apply String.eqb_eq in E. subst k0.
    apply String.eqb_neq in Hne. now rewrite Hne.
  - now rewrite IH.
Qed.

Lemma lookup_delete_eq o k : lookup (delete o k) k = None.
Proof.
  induction o as [|[k0 v0] o IH]; simpl; [reflexivity|].
  destruct (String.eqb k0 k) eqn:E; simpl; [assumption|].
  now rewrite E.
Qed.


Lemma set_fresh o k v :
  hasOwnProperty o k = false -> set o k v = o ++ [(k, v)].
Proof.
  induction o as [|[k0 v0] o IH]; simpl; [reflexivity|].
  intros H. apply orb_false_iff in H as [E Ho]. rewrite E. now rewrite IH.
Qed.

Lemma keys_set o k v :
  keys (set o k v) = if hasOwnProperty o k then keys o else keys o ++ [k].
Proof.
  induction o as [|[k0 v0] o IH]; simpl; [reflexivity|].
  destruct (String.eqb k0 k) eqn:E; simpl; [reflexivity|].
  rewrite IH. now destruct (hasOwnProperty o k).
Qed.

Lemma NoDup_keys_set o k v : NoDup (keys o) -> NoDup (keys (set o k v)).
Proof.
  intros Hnd. rewrite keys_set.
  destruct (hasOwnProperty o k) eqn:E; [assumption|].
  apply NoDup_app; [assumption|repeat constructor; intros []|].
  intros x Hx [<-|[]].
  apply hasOwnProperty_keys in Hx. congruence.
Qed.

End ObjectFacts.

(** ** Key normalization *)

Lemma normalize_fold m : normalize m = fold_left normalizeStep m [].
Proof. reflexivity. Qed.

Lemma fold_normalize_NoDup m acc :
  NoDup (keys acc) -> NoDup (keys (fold_left normalizeStep m acc)).
Proof.
  revert acc. induction m as [|[k v] m IH]; intros acc H; simpl; [assumption|].
  apply IH. now apply NoDup_keys_set.
Qed.

Lemma fold_normalize_keys m acc k :
  In k (keys (fold_left normalizeStep m acc)) <->
  In k (keys acc) \/ In k (map normalizeKey (keys m)).
Proof.
  revert acc. induction m as [|[k0 v0] m IH]; intros acc; simpl; [tauto|].
  rewrite IH. unfold normalizeStep at 1. cbn [fst snd]. rewrite keys_set.
  destruct (hasOwnProperty acc (normalizeKey k0)) eqn:E.
  - apply hasOwnProperty_keys in E.
    split; [tauto|]. intros [H|[<-|H]]; auto.
  - rewrite in_app_iff. simpl. tauto.
Qed.

Lemma fold_normalize_value m acc k v :
  lookup (fold_left normalizeStep m acc) k = Some v ->
  lookup acc k = Some v \/
  exists k0, In (k0, v) m /\ normalizeKey k0 = k.
Proof.
  revert acc. induction m as [|[k0 v0] m IH]; intros acc; simpl; [auto|].
  intros H. apply IH in H as [H|(k1 & Hin & Hk)].
  - unfold normalizeStep in H. cbn [fst snd] in H.
    destruct (String.eqb_spec (normalizeKey k0) k) as [E|E].
    + subst k. rewrite lookup_set_eq in H. injection H as ->.
      right. exists k0. auto.
    + rewrite lookup_set_ne in H by assumption. auto.
  - right. exists k1. auto.
Qed.

(** Stored again, an object whose keys the normalization leaves alone comes
    out as it is. *)
Lemma fold_normalize_fixed m acc :
  NoDup (keys m) ->
  (forall k, In k (keys m) -> normalizeKey k = k) ->
  (forall k, In k (keys m) -> ~ In k (keys acc)) ->
  fold_left normalizeStep m acc = acc ++ m.
Proof.
  revert acc. induction m as [|[k v] m IH]; intros acc Hnd Hfix Hfresh; simpl.
  - now rewrite app_nil_r.
  - simpl in Hnd. inversion Hnd as [|? ? Hk Hnd']; subst.
    change (normalizeStep acc (k, v)) with (set acc (normalizeKey k) v).
    rewrite (Hfix k) by (left; reflexivity).
    rewrite set_fresh.
    + rewrite IH; [now rewrite <- app_assoc|assumption|..].
      * intros k' Hk'. apply Hfix. now right.
      * intros k' Hk' Hin. unfold keys in Hin.
        rewrite map_app, in_app_iff in Hin. simpl in Hin.
        destruct Hin as [Hin|[<-|[]]]; [|exact (Hk Hk')].
        apply (Hfresh k'); [now right|exact Hin].
    + destruct (hasOwnProperty acc k) eqn:E; [|reflexivity].
      apply hasOwnProperty_keys in E.
      exfalso. apply (Hfresh k); [now left|exact E].
Qed.

Lemma normalizeKey_settled k :
  JsString.includes RDP_ESCAPING_PREFIX (normalizeKey k) = false ->
  normalizeKey (normalizeKey k) = normalizeKey k.
Proof.
  intros H. unfold normalizeKey at 1.
  rewrite replace_absent by assumption.
  unfold normalizeKey. apply toLowerCase_idem.
Qed.

Lemma NoDup_map_collision (A B : Type) (f : A -> B) (l : list A) x y :
  NoDup (map f l) -> In x l -> In y l -> f x = f y -> x = y.
Proof.
  induction l as [|a l IH]; simpl; [tauto|].
  intros Hnd Hx Hy Hf. inversion Hnd as [|? ? Ha Hnd']; subst.
  destruct Hx as [->|Hx], Hy as [->|Hy]; auto.
  - exfalso. apply Ha. rewrite Hf. now apply in_map.
  - exfalso. apply Ha. rewrite <- Hf. now apply in_map.
Qed.

Lemma normalize_length_le m : List.length (normalize m) <= List.length m.
Proof.
  rewrite normalize_fold.
  assert (Hnd : NoDup (keys (fold_left normalizeStep m []))).
  { apply fold_normalize_NoDup. constructor. }
  apply NoDup_incl_length with (l' := map normalizeKey (keys m)) in Hnd.
  - unfold keys in Hnd. now rewrite !length_map in Hnd.
  - intros k Hk. apply fold_normalize_keys in Hk as [[]|Hk]. exact Hk.
Qed.

(** C8, as amended.  On every metadata object whose keys, once normalized,
    no longer contain the escaping prefix [x_rdp_], [getBlobMetadata]
    applied to its own result gives that result again. *)
Theorem normalization_idempotent_once_settled (r : BlobMetadataResult) :
  (forall k, In k (keys (metadata r)) ->
     JsString.includes RDP_ESCAPING_PREFIX (normalizeKey k) = false) ->
  getBlobMetadata {| name := name r; metadata := getBlobMetadata r |}
  = getBlobMetadata r.
Proof.
  intros Hsettled. unfold getBlobMetadata. simpl.
  set (once := normalize (metadata r)).
  rewrite normalize_fold. apply fold_normalize_fixed.
  - apply fold_normalize_NoDup. constructor.
  - intros k Hk.
    apply fold_normalize_keys in Hk as [[]|Hk].
    apply in_map_iff in Hk as (k0 & <- & Hk0).
    apply normalizeKey_settled. now apply Hsettled.
  - intros k _ [].
Qed.

Lemma normalization_idempotent_once_settled_witness :
  let r := {| name := "photo.jpg";
              metadata := [("x_rdp_tenantid", "T1"); ("Color", "red")] |} in
  getBlobMetadata {| name := name r; metadata := getBlobMetadata r |}
  = getBlobMetadata r.
Proof.
  intros r. apply (normalization_idempotent_once_settled r).
  simpl. intros k [<-|[<-|[]]]; reflexivity.
Defined.

(** C8 as the specification has it fails: only the first [x_rdp_] of a key
    is replaced, so a second application changes the key again. *)
Lemma normalization_twice_differs :
  let r := {| name := "photo.jpg";
              metadata := [("x_rdp_x_rdp_a", "v")] |} in
  let once := getBlobMetadata r in
  let twice := getBlobMetadata {| name := name r; metadata := once |} in
  lookup once "x-rdp-x_rdp_a" = Some "v"
  /\ lookup twice "x-rdp-x_rdp_a" = None
  /\ twice <> once.
Proof.
  simpl. repeat split; try reflexivity. discriminate.
Qed.

(** C10.  When two distinct keys of the metadata normalize to the same
    string, [getBlobMetadata] returns fewer properties than it was given;
    the common key occurs once in the result, with the value of one of the
    keys that normalize to it. *)
Theorem normalization_merges_colliding_keys (r : BlobMetadataResult)
  (k1 k2 : string) :
  In k1 (keys (metadata r)) ->
  In k2 (keys (metadata r)) ->
  k1 <> k2 ->
  normalizeKey k1 = normalizeKey k2 ->
  List.length (getBlobMetadata r) < List.length (metadata r)
  /\ NoDup (keys (getBlobMetadata r))
  /\ exists k v,
       In (k, v) (metadata r)
       /\ normalizeKey k = normalizeKey k1
       /\ lookup (getBlobMetadata r) (normalizeKey k1) = Some v.
Proof.
  intros H1 H2 Hne Hnk. unfold getBlobMetadata.
  set (m := metadata r) in *.
  assert (Hnd : NoDup (keys (normalize m))).
  { rewrite normalize_fold. apply fold_normalize_NoDup. constructor. }
  assert (Hincl : incl (keys (normalize m)) (map normalizeKey (keys m))).
  { intros k Hk. rewrite normalize_fold in Hk.
    apply fold_normalize_keys in Hk as [[]|Hk]. exact Hk. }
  split; [|split; [exact Hnd|]].
  - destruct (Nat.lt_ge_cases (List.length (normalize m)) (List.length m))
      as [Hlt|Hge]; [exact Hlt|exfalso].
    apply Hne.
    apply (NoDup_map_collision _ _ normalizeKey (keys m)); try assumption.
    apply NoDup_incl_NoDup with (l := keys (normalize m));
      [exact Hnd| |exact Hincl].
    unfold keys. now rewrite !length_map.
  - assert (Hin : In (normalizeKey k1) (keys (normalize m))).
    { rewrite normalize_fold. apply fold_normalize_keys. right.
      now apply in_map. }
    apply hasOwnProperty_keys, hasOwnProperty_true_lookup in Hin as [v Hv].
    pose proof Hv as Hv'. rewrite normalize_fold in Hv'.
    apply fold_normalize_value in Hv' as [Hv'|(k0 & Hk0 & Hn)];
      [discriminate|].
    exists k0, v. auto.
Qed.

Lemma normalization_merges_colliding_keys_witness :
  let r := {| name := "photo.jpg";
              metadata := [("Color", "red"); ("color", "blue");
                           ("x_rdp_tenantid", "T1")] |} in
  List.length (getBlobMetadata r) < List.length (metadata r)
  /\ NoDup (keys (getBlobMetadata r))
  /\ exists k v,
       In (k, v) (metadata r)
       /\ normalizeKey k = normalizeKey "Color"
       /\ lookup (getBlobMetadata r) (normalizeKey "Color") = Some v.
Proof.
  intros r.
  apply (normalization_merges_colliding_keys r "Color" "color").
  - simpl. auto.
  - simpl. auto.
  - discriminate.
  - reflexivity.
Defined.

(** ** The handler of [index.js] *)

Lemma require_cases env x k :
  (truthyStr (lookup env x) = false /\ require env x k = missing x)
  \/ (exists v, truthyStr (lookup env x) = true /\ require env x k = k v).
Proof.
  unfold require, truthyStr. destruct (lookup env x) as [v|]; simpl; auto.
  destruct (negb (String.eqb v EmptyString)); eauto.
Qed.

(** [getEnvironmentConfiguration] either reports the first variable that is
    unset or empty, or returns a configuration; the configuration has no
    [StorageConStr] property. *)
Lemma getEnvironmentConfiguration_cases env :
  (exists v, In v requiredVariables
     /\ truthyStr (lookup env v) = false
     /\ Index.getEnvironmentConfiguration env = missing v)
  \/ ((forall v, In v requiredVariables -> truthyStr (lookup env v) = true)
      /\ exists envConfig,
           Index.getEnvironmentConfiguration env = ([], Some envConfig)
           /\ lookup envConfig "StorageConStr" = None).
Proof.
  unfold Index.getEnvironmentConfiguration, requiredVariables.
  repeat match goal with
  | |- context [require env ?x ?k] =>
      destruct (require_cases env x k) as [[? ->]|(? & ? & ->)];
      [left; exists x; simpl; tauto|]
  end.
  right. split.
  - simpl. intros v Hv.
    repeat (destruct Hv as [<-|Hv]; [assumption|]). destruct Hv.
  - eexists. split; reflexivity.
Qed.

(** The query of the storage service is guarded by
    [envConfig.StorageConStr], which no configuration has: the handler of
    [index.js] makes no network call, whatever it is given. *)
Lemma handler_makes_no_network_call w context eventGridEvent :
  existsb isNetworkCall (Index.handler w context eventGridEvent) = false.
Proof.
  unfold Index.handler.
  destruct (List.length _ =? 7)%nat; [|reflexivity].
  destruct (pop _) as [fileBlobName subjectVal].
  destruct (getEnvironmentConfiguration_cases (processEnv w))
    as [(v & _ & _ & ->)|(_ & envConfig & -> & Hcreds)].
  - reflexivity.
  - unfold truthyStr. rewrite Hcreds. reflexivity.
Qed.

(** So the handler of [index.js] has two runs only: it completes at once,
    or it reports a variable it could not locate and then completes. *)
Lemma handler_runs w context eventGridEvent :
  let t := Index.handler w context eventGridEvent in
  t = [Done None]
  \/ exists v,
       In v requiredVariables
       /\ t = fst (missing v) ++ [Done None].
Proof.
  unfold Index.handler.
  destruct (List.length _ =? 7)%nat; [|now left].
  destruct (pop _) as [fileBlobName subjectVal].
  destruct (getEnvironmentConfiguration_cases (processEnv w))
    as [(v & Hv & _ & ->)|(_ & envConfig & -> & Hcreds)].
  - right. exists v. auto.
  - left. unfold truthyStr. rewrite Hcreds. reflexivity.
Qed.

(** The handler always ends its own run with [context.done()], without an
    error. *)
Lemma handler_signals_completion w context eventGridEvent :
  In (Done None) (Index.handler w context eventGridEvent).
Proof.
  unfold Index.handler.
  destruct (if (List.length _ =? 7)%nat then _ else _) as [started later].
  apply in_or_app. right. now left.
Qed.

(** C1.  An event whose subject does not split into exactly 7 segments
    leads to no storage query and no HTTP request; the invocation is
    completed by [context.done()] without an error, and nothing else
    happens. *)
Theorem other_subjects_are_skipped w context eventGridEvent :
  List.length (JsString.split "/" (subject eventGridEvent)) <> 7 ->
  let t := Index.handler w context eventGridEvent in
  existsb isFetch t = false
  /\ existsb isHttpCall t = false
  /\ existsb isFailure t = false
  /\ t = [Done None].
Proof.
  intros Hlen. unfold Index.handler.
  apply Nat.eqb_neq in Hlen. rewrite Hlen. simpl. auto.
Qed.

Lemma other_subjects_are_skipped_witness :
  let t := Index.handler
             (sampleWorld sampleEnv (FetchOk None) (ResponseEnd 200 []))
             sampleContext
             (sampleEvent "/blobServices/default/containers/assets/blobs/renditions/photo.jpg") in
  existsb isFetch t = false
  /\ existsb isHttpCall t = false
  /\ existsb isFailure t = false
  /\ t = [Done None].
Proof.
  apply (other_subjects_are_skipped
           (sampleWorld sampleEnv (FetchOk None) (ResponseEnd 200 []))
           sampleContext
           (sampleEvent "/blobServices/default/containers/assets/blobs/renditions/photo.jpg")).
  simpl. lia.
Defined.

(** C2.  When the normalized metadata have no [x-rdp-tenantid] key, the
    metadata callback only logs that the tenant id is absent: no HTTP
    request, no error given to [context.done], no exception.  The
    invocation has been completed by the handler's own [context.done()],
    which carries no error. *)
Theorem missing_tenant_makes_no_call w context eventGridEvent envConfig
  subjectVal blobMetadataResult :
  lookup (getBlobMetadata blobMetadataResult) "x-rdp-tenantid" = None ->
  let t := Index.metadataCallback w context eventGridEvent envConfig
             subjectVal (FetchOk (Some blobMetadataResult)) in
  existsb isHttpCall t = false
  /\ existsb isFailure t = false
  /\ t = [LogError "TenantId is not present in asset metadata"]
  /\ In (Done None) (Index.handler w context eventGridEvent).
Proof.
  intros Hnone. unfold Index.metadataCallback, truthyStr.
  rewrite Hnone. simpl.
  repeat split; auto using handler_signals_completion.
Qed.

Lemma missing_tenant_makes_no_call_witness :
  let w := sampleWorld sampleEnv
             (FetchOk (Some (sampleBlob [("x_rdp_clientid", "c1")])))
             (ResponseEnd 200 []) in
  let t := Index.metadataCallback w sampleContext (sampleEvent sampleSubject)
             sampleConfig [] (FetchOk (Some (sampleBlob [("x_rdp_clientid", "c1")]))) in
  existsb isHttpCall t = false
  /\ existsb isFailure t = false
  /\ t = [LogError "TenantId is not present in asset metadata"]
  /\ In (Done None) (Index.handler w sampleContext (sampleEvent sampleSubject)).
Proof.
  apply (missing_tenant_makes_no_call
           (sampleWorld sampleEnv
              (FetchOk (Some (sampleBlob [("x_rdp_clientid", "c1")])))
              (ResponseEnd 200 []))
           sampleContext (sampleEvent sampleSubject) sampleConfig []
           (sampleBlob [("x_rdp_clientid", "c1")])).
  reflexivity.
Defined.

(** C6, as amended.  When the storage query fails, the callback logs the
    failure and the subject and calls [context.done()] with no argument:
    no HTTP request, no second query, and no error given to the
    platform. *)
Theorem fetch_failure_ends_quietly w context eventGridEvent envConfig
  subjectVal error :
  let t := Index.metadataCallback w context eventGridEvent envConfig
             subjectVal (FetchFailed error) in
  t = [Log "Error fetching metadata" [];
       Log "subjectVal: " [JSArray (map JSString subjectVal)];
       Done None]
  /\ existsb isNetworkCall t = false
  /\ existsb isFailure t = false.
Proof.
  simpl. auto.
Qed.

(** C6 as the specification has it fails: a failed query is not surfaced
    as a failure of the invocation. *)
Lemma fetch_failure_is_not_surfaced :
  existsb isFailure
    (Index.metadataCallback
       (sampleWorld sampleEnv (FetchFailed "ETIMEDOUT") (ResponseEnd 200 []))
       sampleContext (sampleEvent sampleSubject) sampleConfig
       ["blobServices"; "default"] (FetchFailed "ETIMEDOUT"))
  = false.
Proof. reflexivity. Qed.

(** C5 as the specification has it fails.  In [index.js] the environment is
    read only for a subject of 7 segments: for another subject nothing is
    logged and no error is signalled, although the variables are unset.  In
    the earlier handler the storage is queried before the environment is
    read. *)
Lemma missing_variable_not_always_reported :
  let w := sampleWorld []
             (FetchOk (Some (sampleBlob [("x_rdp_tenantid", "T1")])))
             (ResponseEnd 200 []) in
  lookup (processEnv w) "ENV_RDP_HOST" = None
  /\ Index.handler w sampleContext (sampleEvent "/containers/assets")
     = [Done None]
  /\ existsb isErrorLog
       (Index.handler w sampleContext (sampleEvent "/containers/assets"))
     = false
  /\ Variant.handler w sampleContext (sampleEvent sampleSubject)
     = [GetBlobMetadata (Some "rdp-media-assets-engg-az-qa5-rwtest")
          (Some "photo.jpg");
        LogError "Unable to locate environment variable ENV_RDP_HOST";
        Done (Some "Unable to locate environment variable ENV_RDP_HOST")].
Proof. repeat split. Qed.

(** ** The descriptor *)

Lemma hasOwnProperty_lookup_None (V : Type) (o : Obj V) k :
  hasOwnProperty o k = false <-> lookup o k = None.
Proof.
  split; [apply hasOwnProperty_false_lookup|].
  intros H. destruct (hasOwnProperty o k) eqn:E; [|reflexivity].
  apply hasOwnProperty_true_lookup in E as [v Hv]. congruence.
Qed.

Lemma copyProperty_Value props p props' :
  copyProperty props p = Value props' ->
  props' = if negb (JsString.includes "x-rdp" (fst p))
              && negb (hasOwnProperty props (fst p))
           then set props (fst p) (JSString (snd p))
           else props.
Proof.
  unfold copyProperty, callHasOwnProperty.
  destruct (JsString.includes "x-rdp" (fst p)); simpl; [congruence|].
  destruct (lookup props "hasOwnProperty"); [discriminate|].
  destruct (hasOwnProperty props (fst p)); simpl; congruence.
Qed.

(** What the loop over the metadata, when it ends, leaves under a name: a
    property the descriptor had is kept; otherwise the metadata value comes
    in, unless the name contains [x-rdp]. *)
Lemma applyMetadata_lookup (blobMetadata : Obj string)
  (props out : Obj JSValue) (k : string) :
  applyMetadata blobMetadata props = Value out ->
  lookup out k =
  match lookup props k with
  | Some x => Some x
  | None =>
      if JsString.includes "x-rdp" k then None
      else option_map JSString (lookup blobMetadata k)
  end.
Proof.
  revert props. induction blobMetadata as [|[k0 v0] md IH]; intros props.
  - simpl. intros H. injection H as <-.
    destruct (lookup props k); [reflexivity|].
    now destruct (JsString.includes "x-rdp" k).
  - simpl. destruct (copyProperty props (k0, v0)) as [props'|e] eqn:Hstep;
      [|discriminate].
    intros Hout. rewrite (IH _ Hout).
    apply copyProperty_Value in Hstep. subst props'. cbn [fst snd].
    destruct (String.eqb_spec k0 k) as [->|Hne].
    + destruct (lookup props k) as [x|] eqn:Hx.
      * assert (Hown : hasOwnProperty props k = true).
        { destruct (hasOwnProperty props k) eqn:E; [reflexivity|].
          apply hasOwnProperty_lookup_None in E. congruence. }
        rewrite Hown, andb_false_r, Hx. reflexivity.
      * apply hasOwnProperty_lookup_None in Hx as Hown. rewrite Hown.
        destruct (JsString.includes "x-rdp" k) eqn:Hinc; simpl.
        -- now rewrite Hx.
        -- now rewrite lookup_set_eq.
    + destruct (negb (JsString.includes "x-rdp" k0)
                && negb (hasOwnProperty props k0)); [|reflexivity].
      now rewrite lookup_set_ne.
Qed.

(** The loop ends when no metadata entry is named [hasOwnProperty]. *)
Lemma applyMetadata_succeeds (blobMetadata : Obj string)
  (props : Obj JSValue) :
  lookup blobMetadata "hasOwnProperty" = None ->
  lookup props "hasOwnProperty" = None ->
  exists out, applyMetadata blobMetadata props = Value out.
Proof.
  revert props. induction blobMetadata as [|[k0 v0] md IH]; intros props;
    simpl; [eauto|].
  destruct (String.eqb_spec k0 "hasOwnProperty") as [->|Hne]; [discriminate|].
  intros Hmd Hprops. unfold copyProperty, callHasOwnProperty. cbn [fst snd].
  rewrite Hprops.
  destruct (negb (JsString.includes "x-rdp" k0)); [|now apply IH].
  destruct (hasOwnProperty props k0); apply IH; try assumption.
  now rewrite lookup_set_ne.
Qed.

Lemma remainingMetadata_lookup (blobMetadata : Obj string) k :
  k <> "originalfilename" ->
  lookup (remainingMetadata blobMetadata) k = lookup blobMetadata k.
Proof.
  intros Hne. unfold remainingMetadata.
  destruct (truthyStr _); [|reflexivity].
  apply lookup_delete_ne. congruence.
Qed.

Lemma declaredProperties_lookup eventGridEvent blobMetadataResult headers k :
  k <> "ownershipData" ->
  lookup (declaredProperties eventGridEvent blobMetadataResult headers) k =
  lookup (initialProperties eventGridEvent (name blobMetadataResult)
            (assignedOriginalFileName blobMetadataResult) headers) k.
Proof.
  intros Hne. unfold declaredProperties, addOwnershipData.
  destruct (truthyStr _); [|reflexivity].
  apply lookup_set_ne. congruence.
Qed.

Lemma orElseStr_set v d : v <> EmptyString -> orElseStr (Some v) d = v.
Proof.
  intros Hv. unfold orElseStr, truthyStr. simpl.
  apply String.eqb_neq in Hv. now rewrite Hv.
Qed.

(** What a descriptor that was built is made of. *)
Lemma built_descriptor context eventGridEvent blobMetadataResult headers d :
  fst (buildBinaryStreamObject context eventGridEvent blobMetadataResult
         headers) = Value d ->
  value (taskId d) = assignedTaskId context blobMetadataResult
  /\ objectId d
     = orElseStr (lookup (metadata blobMetadataResult) "binarystreamobjectid")
         (invocationId context)
  /\ applyMetadata (remainingMetadata (metadata blobMetadataResult))
       (declaredProperties eventGridEvent blobMetadataResult headers)
     = Value (properties d).
Proof.
  unfold buildBinaryStreamObject. cbn [fst].
  destruct (applyMetadata _ _) as [props|e]; [|discriminate].
  intros H. injection H as <-. auto.
Qed.

(** The descriptor is built when no metadata entry is named
    [hasOwnProperty]. *)
Lemma descriptor_is_built context eventGridEvent blobMetadataResult headers :
  lookup (metadata blobMetadataResult) "hasOwnProperty" = None ->
  exists d,
    fst (buildBinaryStreamObject context eventGridEvent blobMetadataResult
           headers) = Value d.
Proof.
  intros Hnone. unfold buildBinaryStreamObject. cbn [fst].
  destruct (applyMetadata_succeeds
              (remainingMetadata (metadata blobMetadataResult))
              (declaredProperties eventGridEvent blobMetadataResult headers))
    as [out Hout].
  - now rewrite remainingMetadata_lookup by discriminate.
  - now rewrite declaredProperties_lookup by discriminate.
  - rewrite Hout. eauto.
Qed.

(** When the descriptor is built from metadata that hold
    [binarystreamobjectid = "B1"] and [originalfilename = "f.jpg"], it has
    id ["B1"], its [originalFileName] property is ["f.jpg"], and it has no
    [originalfilename] property; that key is deleted from the metadata in
    any case. *)
Lemma descriptor_takes_id_and_file_name context eventGridEvent
  blobMetadataResult headers d :
  lookup (metadata blobMetadataResult) "binarystreamobjectid" = Some "B1" ->
  lookup (metadata blobMetadataResult) "originalfilename" = Some "f.jpg" ->
  fst (buildBinaryStreamObject context eventGridEvent blobMetadataResult
         headers) = Value d ->
  objectId d = "B1"
  /\ lookup (properties d) "originalFileName" = Some (JSString "f.jpg")
  /\ lookup (properties d) "originalfilename" = None
  /\ lookup (metadata (snd (buildBinaryStreamObject context eventGridEvent
                             blobMetadataResult headers)))
       "originalfilename" = None.
Proof.
  intros Hid Hname Hbuilt.
  apply built_descriptor in Hbuilt as (_ & Hobj & Hprops).
  assert (Hrem : remainingMetadata (metadata blobMetadataResult)
                 = delete (metadata blobMetadataResult) "originalfilename").
  { unfold remainingMetadata. now rewrite Hname. }
  repeat split.
  - rewrite Hobj, Hid. now apply orElseStr_set.
  - rewrite (applyMetadata_lookup _ _ _ _ Hprops).
    rewrite declaredProperties_lookup by discriminate.
    unfold assignedOriginalFileName. rewrite Hname. reflexivity.
  - rewrite (applyMetadata_lookup _ _ _ _ Hprops).
    rewrite declaredProperties_lookup by discriminate.
    rewrite Hrem, lookup_delete_eq. reflexivity.
  - unfold buildBinaryStreamObject. cbn [snd metadata].
    rewrite Hrem. apply lookup_delete_eq.
Qed.

(** C9.  The code at a metadata map of the claim: with
    [binarystreamobjectid = "B1"] and [originalfilename = "f.jpg"], then an
    entry named [hasOwnProperty] and one more entry, the loop that applies
    the metadata calls [hasOwnProperty] through the properties it has just
    overwritten, and throws: no descriptor is built.  Without the two last
    entries the descriptor is as the claim says. *)
Theorem descriptor_is_not_built_when_shadowed :
  let entries := [("binarystreamobjectid", "B1");
                  ("originalfilename", "f.jpg")] in
  let more := [("hasOwnProperty", "x"); ("color", "red")] in
  lookup (entries ++ more) "binarystreamobjectid" = Some "B1"
  /\ lookup (entries ++ more) "originalfilename" = Some "f.jpg"
  /\ fst (buildBinaryStreamObject sampleContext (sampleEvent sampleSubject)
            (sampleBlob (entries ++ more)) [])
     = Thrown TypeError
  /\ exists d,
       fst (buildBinaryStreamObject sampleContext (sampleEvent sampleSubject)
              (sampleBlob entries) []) = Value d
       /\ objectId d = "B1"
       /\ lookup (properties d) "originalFileName" = Some (JSString "f.jpg")
       /\ lookup (properties d) "originalfilename" = None.
Proof.
  repeat split. eexists. repeat split.
Qed.

(** C3, as amended.  The task id is read under the name
    [TASK_ID_METADATA_PROPERTY] itself, not under the value [x-rdp-taskid]
    of that constant: metadata that have [x-rdp-taskid] and no property
    named [TASK_ID_METADATA_PROPERTY] give the invocation id; a property
    named [TASK_ID_METADATA_PROPERTY] gives its value when that value is
    not empty, and the invocation id when it is.  The task id so assigned
    is the one of every descriptor that is built. *)
Theorem task_id_is_read_under_the_constant_name context eventGridEvent
  blobMetadataResult headers :
  let md := metadata blobMetadataResult in
  let assigned := assignedTaskId context blobMetadataResult in
  (forall t, lookup md TASK_ID_METADATA_PROPERTY = Some t ->
             lookup md "TASK_ID_METADATA_PROPERTY" = None ->
             assigned = invocationId context)
  /\ (forall v, lookup md "TASK_ID_METADATA_PROPERTY" = Some v ->
                v <> EmptyString ->
                assigned = v)
  /\ (lookup md "TASK_ID_METADATA_PROPERTY" = Some EmptyString ->
      assigned = invocationId context)
  /\ (forall d,
        fst (buildBinaryStreamObject context eventGridEvent
               blobMetadataResult headers) = Value d ->
        value (taskId d) = assigned).
Proof.
  intros md assigned. subst md assigned. unfold assignedTaskId.
  rewrite remainingMetadata_lookup by discriminate.
  repeat split.
  - intros t _ Hnone. now rewrite Hnone.
  - intros v Hv Hne. rewrite Hv. now apply orElseStr_set.
  - intros Hempty. now rewrite Hempty.
  - intros d Hd. apply built_descriptor in Hd as (Ht & _).
    rewrite Ht. unfold assignedTaskId.
    now rewrite remainingMetadata_lookup by discriminate.
Qed.

Lemma task_id_is_read_under_the_constant_name_witness :
  assignedTaskId sampleContext (sampleBlob [("x-rdp-taskid", "T9")])
  = "inv-1"
  /\ assignedTaskId sampleContext
       (sampleBlob [("TASK_ID_METADATA_PROPERTY", "T7")])
     = "T7"
  /\ forall d,
       fst (buildBinaryStreamObject sampleContext (sampleEvent sampleSubject)
              (sampleBlob [("TASK_ID_METADATA_PROPERTY", "T7")]) [])
       = Value d ->
       value (taskId d)
       = assignedTaskId sampleContext
           (sampleBlob [("TASK_ID_METADATA_PROPERTY", "T7")]).
Proof.
  split; [|split].
  - apply (proj1 (task_id_is_read_under_the_constant_name sampleContext
                    (sampleEvent sampleSubject)
                    (sampleBlob [("x-rdp-taskid", "T9")]) []) "T9");
      reflexivity.
  - apply (proj1 (proj2 (task_id_is_read_under_the_constant_name
                           sampleContext (sampleEvent sampleSubject)
                           (sampleBlob [("TASK_ID_METADATA_PROPERTY", "T7")])
                           [])) "T7");
      [reflexivity|discriminate].
  - apply (proj2 (proj2 (proj2 (task_id_is_read_under_the_constant_name
                           sampleContext (sampleEvent sampleSubject)
                           (sampleBlob [("TASK_ID_METADATA_PROPERTY", "T7")])
                           [])))).
Defined.

(** C3 as the specification has it fails: a property named
    [TASK_ID_METADATA_PROPERTY] whose value is the empty string is present
    and is not used. *)
Lemma task_id_ignores_an_empty_value :
  let r := sampleBlob [("TASK_ID_METADATA_PROPERTY", EmptyString)] in
  lookup (metadata r) "TASK_ID_METADATA_PROPERTY" = Some EmptyString
  /\ fst (buildBinaryStreamObject sampleContext (sampleEvent sampleSubject)
            r [])
     = Value {| taskId := {| locale := "en-US"; source := "internal";
                             value := "inv-1" |};
                objectId := "inv-1";
                objectType := "binarystreamobject";
                properties :=
                  declaredProperties (sampleEvent sampleSubject) r []
                  ++ [("TASK_ID_METADATA_PROPERTY", JSString EmptyString)] |}
  /\ "inv-1" <> EmptyString.
Proof. repeat split. discriminate. Qed.

Lemma declaredProperties_reserved eventGridEvent blobMetadataResult headers k :
  JsString.startsWith RDP_PREFIX k = true ->
  lookup (declaredProperties eventGridEvent blobMetadataResult headers) k
  = None.
Proof.
  intros Hk.
  assert (Hnot : forall n, JsString.startsWith RDP_PREFIX n = false -> k <> n)
    by (intros n Hn ->; congruence).
  rewrite declaredProperties_lookup by (apply Hnot; reflexivity).
  unfold initialProperties. cbn [lookup].
  repeat match goal with
  | |- context [String.eqb ?n k] =>
      destruct (String.eqb_spec n k) as [E|_];
      [exfalso; symmetry in E; revert E; apply Hnot; reflexivity|]
  end.
  reflexivity.
Qed.

(** C7, as amended.  From metadata that have no entry named
    [hasOwnProperty] the descriptor is built, and in it: a metadata entry
    whose name does not contain [x-rdp], is not a property the descriptor
    already has, and is not an [originalfilename] with a non-empty value
    (which is deleted first) is a property of the same name with the same
    value; and no name that starts with [x-rdp-] is a property. *)
Theorem metadata_are_copied_through context eventGridEvent
  blobMetadataResult headers :
  lookup (metadata blobMetadataResult) "hasOwnProperty" = None ->
  exists d,
    fst (buildBinaryStreamObject context eventGridEvent blobMetadataResult
           headers) = Value d
    /\ (forall k v,
          lookup (metadata blobMetadataResult) k = Some v ->
          JsString.includes "x-rdp" k = false ->
          hasOwnProperty
            (declaredProperties eventGridEvent blobMetadataResult headers) k
          = false ->
          (k = "originalfilename" -> v = EmptyString) ->
          lookup (properties d) k = Some (JSString v))
    /\ (forall k,
          JsString.startsWith RDP_PREFIX k = true ->
          lookup (properties d) k = None).
Proof.
  intros Hnone.
  destruct (descriptor_is_built context eventGridEvent blobMetadataResult
              headers Hnone) as [d Hd].
  exists d. split; [exact Hd|].
  apply built_descriptor in Hd as (_ & _ & Hprops). split.
  - intros k v Hv Hinc Hown Horig.
    rewrite (applyMetadata_lookup _ _ _ _ Hprops).
    apply hasOwnProperty_lookup_None in Hown. rewrite Hown, Hinc.
    assert (Hrem : lookup (remainingMetadata (metadata blobMetadataResult)) k
                   = Some v).
    { destruct (String.eqb_spec k "originalfilename") as [->|Hne].
      - specialize (Horig eq_refl). subst v.
        unfold remainingMetadata. rewrite Hv. exact Hv.
      - now rewrite remainingMetadata_lookup. }
    now rewrite Hrem.
  - intros k Hk.
    rewrite (applyMetadata_lookup _ _ _ _ Hprops).
    rewrite declaredProperties_reserved by exact Hk.
    assert (Hinc : JsString.includes "x-rdp" k = true).
    { apply startsWith_includes.
      apply (startsWith_app "x-rdp" "-"). exact Hk. }
    now rewrite Hinc.
Qed.

Lemma metadata_are_copied_through_witness :
  exists d,
    fst (buildBinaryStreamObject sampleContext (sampleEvent sampleSubject)
           (sampleBlob [("x-rdp-tenantid", "T1"); ("color", "red")])
           (createRequestHeaders sampleConfig [])) = Value d
    /\ lookup (properties d) "color" = Some (JSString "red")
    /\ lookup (properties d) "x-rdp-tenantid" = None.
Proof.
  destruct (metadata_are_copied_through sampleContext
              (sampleEvent sampleSubject)
              (sampleBlob [("x-rdp-tenantid", "T1"); ("color", "red")])
              (createRequestHeaders sampleConfig []) eq_refl)
    as (d & Hd & Hcopy & Hreserved).
  exists d. split; [exact Hd|]. split.
  - apply (Hcopy "color" "red");
      [reflexivity|reflexivity|reflexivity|discriminate].
  - apply (Hreserved "x-rdp-tenantid"). reflexivity.
Defined.

(** C7 as the specification has it fails: [originalfilename] does not start
    with [x-rdp-] and is not a property the descriptor already has (that
    one is [originalFileName]), and it is not copied. *)
Lemma original_file_name_is_not_copied :
  let r := sampleBlob [("originalfilename", "f.jpg")] in
  let h := createRequestHeaders sampleConfig [] in
  lookup (metadata r) "originalfilename" = Some "f.jpg"
  /\ JsString.startsWith RDP_PREFIX "originalfilename" = false
  /\ hasOwnProperty (declaredProperties (sampleEvent sampleSubject) r h)
       "originalfilename" = false
  /\ exists d,
       fst (buildBinaryStreamObject sampleContext (sampleEvent sampleSubject)
              r h) = Value d
       /\ lookup (properties d) "originalfilename" = None.
Proof. repeat split. eexists. split; reflexivity. Qed.

(** The test of the loop is [includes('x-rdp')]: a name that has [x-rdp]
    anywhere is left out, also when it does not start with it. *)
Lemma names_containing_the_marker_are_left_out :
  JsString.startsWith RDP_PREFIX "max-rdpi" = false
  /\ exists d,
       fst (buildBinaryStreamObject sampleContext (sampleEvent sampleSubject)
              (sampleBlob [("max-rdpi", "300")]) []) = Value d
       /\ lookup (properties d) "max-rdpi" = None.
Proof. split; [reflexivity|]. eexists. split; reflexivity. Qed.

(** The loop reads the metadata as the storage service gave them, not as
    [getBlobMetadata] normalized them: a name written with the escaping
    prefix does not contain [x-rdp] and is copied. *)
Lemma escaped_names_are_copied :
  let r := sampleBlob [("x_rdp_tenantid", "T1")] in
  exists d,
    fst (buildBinaryStreamObject sampleContext (sampleEvent sampleSubject) r
           (createRequestHeaders sampleConfig (getBlobMetadata r)))
    = Value d
    /\ lookup (properties d) "x_rdp_tenantid" = Some (JSString "T1").
Proof. eexists. split; reflexivity. Qed.

(** ** The HTTP submitter *)

Lemma isSuccessfull_true parse statusCode responseBody :
  parse EmptyString = None ->
  isSuccessfull parse statusCode responseBody = Value true <->
  statusCode = 200%Z
  /\ exists responseJson s,
       parse responseBody = Some responseJson
       /\ responseStatus responseJson = JSString s
       /\ JsString.toLowerCase s = "success".
Proof.
  intros Hempty. unfold isSuccessfull, responseStatus. split.
  - destruct (Z.eqb_spec statusCode 200) as [->|]; [|discriminate].
    destruct (truthy (JSString responseBody)); [|discriminate]. simpl.
    destruct (parse responseBody) as [responseJson|] eqn:Hparse;
      [|discriminate].
    destruct (truthy responseJson); [|discriminate].
    destruct (truthy (prop responseJson "response")); [|discriminate].
    destruct (prop (prop responseJson "response") "status")
      as [| | | |s| |] eqn:Hstatus;
      simpl; try discriminate;
      try (destruct (negb _); discriminate);
      try (destruct b; discriminate).
    destruct (negb (String.eqb s EmptyString)); [|discriminate].
    intros H. injection H as H. apply String.eqb_eq in H.
    split; [reflexivity|]. exists responseJson, s. auto.
  - intros (-> & responseJson & s & Hparse & Hstatus & Hlower).
    assert (Hbody : truthy (JSString responseBody) = true).
    { simpl. destruct (String.eqb_spec responseBody EmptyString) as [->|];
        [congruence|reflexivity]. }
    rewrite Hbody, Hparse. simpl.
    destruct responseJson; try discriminate.
    destruct (prop (JSObject props) "response"); try discriminate.
    rewrite Hstatus. cbn [truthy].
    assert (Hs : String.eqb s EmptyString = false).
    { destruct s; [discriminate|reflexivity]. }
    rewrite Hs, Hlower. reflexivity.
Qed.



(** * Further properties of the code *)

(** ** [getBlobMetadata] *)

Lemma toLowerCase_app s t :
  JsString.toLowerCase (s ++ t)
  = (JsString.toLowerCase s ++ JsString.toLowerCase t)%string.
Proof.
  induction s as [|c s IH]; simpl; [reflexivity|]. now rewrite IH.
Qed.

Lemma startsWith_self_app p s : JsString.startsWith p (p ++ s) = true.
Proof.
  induction p as [|c p IH]; simpl; [now destruct s|].
  now rewrite Ascii.eqb_refl, IH.
Qed.

Lemma drop_length_app p s : JsString.drop (String.length p) (p ++ s) = s.
Proof.
  induction p as [|c p IH]; simpl; [now destruct s|exact IH].
Qed.

(** Under a key [k], the normalized metadata hold the value of the last
    entry whose key normalizes to [k]. *)
Lemma normalize_lookup_last m k :
  lookup (normalize m) k = option_map snd (find (normalizesTo k) (rev m)).
Proof.
  rewrite normalize_fold.
  induction m as [|[k0 v0] m IH] using rev_ind; [reflexivity|].
  rewrite fold_left_app, rev_app_distr. simpl.
  unfold normalizeStep at 1, normalizesTo at 1. cbn [fst snd].
  destruct (String.eqb_spec (normalizeKey k0) k) as [<-|Hne].
  - apply lookup_set_eq.
  - rewrite lookup_set_ne by assumption. exact IH.
Qed.

Lemma fold_normalize_distinct m acc :
  NoDup (keys acc ++ map normalizeKey (keys m)) ->
  fold_left normalizeStep m acc = acc ++ map renamed m.
Proof.
  revert acc. induction m as [|[k v] m IH]; intros acc Hnd; simpl.
  - now rewrite app_nil_r.
  - simpl in Hnd.
    change (normalizeStep acc (k, v)) with (set acc (normalizeKey k) v).
    assert (Hfresh : hasOwnProperty acc (normalizeKey k) = false).
    { destruct (hasOwnProperty acc (normalizeKey k)) eqn:E; [|reflexivity].
      apply hasOwnProperty_keys in E. apply NoDup_remove_2 in Hnd.
      exfalso. apply Hnd. apply in_or_app. now left. }
    rewrite set_fresh by assumption.
    rewrite IH.
    + now rewrite <- app_assoc.
    + unfold keys at 1. rewrite map_app. simpl.
      rewrite <- app_assoc. exact Hnd.
Qed.

(** X1.  The value [getBlobMetadata] returns under a key is the value of
    the last metadata entry, in enumeration order, whose key normalizes to
    it; a key no entry normalizes to is absent. *)
Theorem last_colliding_entry_wins (r : BlobMetadataResult) (k : string) :
  lookup (getBlobMetadata r) k
  = option_map snd (find (normalizesTo k) (rev (metadata r))).
Proof.
  unfold getBlobMetadata. apply normalize_lookup_last.
Qed.

(** X2.  Whatever the metadata, the object [getBlobMetadata] returns has
    each key once, and every key is in lower case and is the normalized
    form of a key of the metadata. *)
Theorem normalized_keys_are_lowercase_and_distinct (r : BlobMetadataResult) :
  NoDup (keys (getBlobMetadata r))
  /\ forall k, In k (keys (getBlobMetadata r)) ->
       JsString.toLowerCase k = k
       /\ exists k0, In k0 (keys (metadata r)) /\ normalizeKey k0 = k.
Proof.
  unfold getBlobMetadata. rewrite normalize_fold. split.
  - apply fold_normalize_NoDup. constructor.
  - intros k Hk. apply fold_normalize_keys in Hk as [[]|Hk].
    apply in_map_iff in Hk as (k0 & <- & Hk0). split.
    + unfold normalizeKey. apply toLowerCase_idem.
    + exists k0. auto.
Qed.

(** X3.  When no two keys of the metadata normalize to the same string,
    [getBlobMetadata] keeps every entry, in order, under its normalized
    key. *)
Theorem distinct_keys_are_all_kept (r : BlobMetadataResult) :
  NoDup (map normalizeKey (keys (metadata r))) ->
  getBlobMetadata r = map renamed (metadata r).
Proof.
  intros Hnd. unfold getBlobMetadata. rewrite normalize_fold.
  now rewrite fold_normalize_distinct.
Qed.

Lemma distinct_keys_are_all_kept_witness :
  getBlobMetadata
    (sampleBlob [("x_rdp_tenantid", "T1"); ("Color", "red");
                 ("x_rdp_userId", "u7")])
  = map renamed [("x_rdp_tenantid", "T1"); ("Color", "red");
                 ("x_rdp_userId", "u7")].
Proof.
  apply (distinct_keys_are_all_kept
           (sampleBlob [("x_rdp_tenantid", "T1"); ("Color", "red");
                        ("x_rdp_userId", "u7")])).
  simpl. repeat constructor; simpl; intuition discriminate.
Defined.

(** X4.  A key that begins with the escaping prefix [x_rdp_] is stored
    under the canonical prefix [x-rdp-] followed by the rest in lower case;
    a key in which [x_rdp_] does not occur as written is only put in lower
    case, so a prefix in capitals is not rewritten. *)
Theorem escaping_prefix_is_rewritten (s k : string) :
  normalizeKey (RDP_ESCAPING_PREFIX ++ s)
  = (RDP_PREFIX ++ JsString.toLowerCase s)%string
  /\ (JsString.includes RDP_ESCAPING_PREFIX k = false ->
      normalizeKey k = JsString.toLowerCase k).
Proof.
  split.
  - unfold normalizeKey.
    assert (H : JsString.replace RDP_ESCAPING_PREFIX RDP_PREFIX
                  (RDP_ESCAPING_PREFIX ++ s) = (RDP_PREFIX ++ s)%string).
    { destruct (RDP_ESCAPING_PREFIX ++ s)%string eqn:E; [discriminate|].
      rewrite <- E. unfold JsString.replace.
      rewrite E. fold JsString.replace. rewrite <- E.
      now rewrite startsWith_self_app, drop_length_app. }
    rewrite H. now rewrite toLowerCase_app.
  - intros Habsent. unfold normalizeKey. now rewrite replace_absent.
Qed.

Lemma escaping_prefix_is_rewritten_witness :
  normalizeKey (RDP_ESCAPING_PREFIX ++ "TenantId") = "x-rdp-tenantid"
  /\ normalizeKey "X_RDP_TenantId" = "x_rdp_tenantid".
Proof.
  split.
  - apply (proj1 (escaping_prefix_is_rewritten "TenantId" EmptyString)).
  - apply (proj2 (escaping_prefix_is_rewritten EmptyString "X_RDP_TenantId")).
    reflexivity.
Defined.

(** ** [getEnvironmentConfiguration] *)

Lemma require_found env x k :
  (truthyStr (lookup env x) = false /\ require env x k = missing x)
  \/ (exists v, lookup env x = Some v
        /\ truthyStr (lookup env x) = true
        /\ require env x k = k v).
Proof.
  unfold require, truthyStr. destruct (lookup env x) as [v|]; simpl; auto.
  destruct (negb (String.eqb v EmptyString)); eauto.
Qed.

Ltac check_variable env :=
  match goal with
  | |- context [require env ?x ?k] =>
      let Hm := fresh "Hmiss" in
      let Hs := fresh "Hset" in
      let Ht := fresh "Htrue" in
      destruct (require_found env x k) as [[Hm ->]|(? & Hs & Ht & ->)];
      [unfold firstMissing; simpl; rewrite ?Hm; reflexivity
      |unfold firstMissing in *; simpl; simpl in Ht; rewrite Ht; simpl]
  end.

Lemma index_configuration env :
  Index.getEnvironmentConfiguration env
  = match firstMissing requiredVariables env with
    | Some v =>
        ([LogError (unableToLocate v); Done (Some (unableToLocate v))], None)
    | None => ([], Some (configurationOf env))
    end.
Proof.
  unfold Index.getEnvironmentConfiguration, requiredVariables.
  do 6 check_variable env.
  unfold configurationOf.
  repeat match goal with H : lookup env _ = Some _ |- _ =>
    rewrite H; clear H end.
  reflexivity.
Qed.

Lemma variant_configuration env :
  Variant.getEnvironmentConfiguration env
  = match firstMissing variantVariables env with
    | Some v =>
        ([LogError (unableToLocate v); Done (Some (unableToLocate v))], None)
    | None => ([], Some (configurationOf env))
    end.
Proof.
  unfold Variant.getEnvironmentConfiguration, variantVariables.
  do 5 check_variable env.
  unfold configurationOf.
  repeat match goal with H : lookup env _ = Some _ |- _ =>
    rewrite H; clear H end.
  reflexivity.
Qed.

Lemma firstMissing_None variables env :
  firstMissing variables env = None <->
  forall v, In v variables -> truthyStr (lookup env v) = true.
Proof.
  unfold firstMissing. induction variables as [|a l IH]; simpl.
  - split; [intros _ v []|reflexivity].
  - destruct (truthyStr (lookup env a)) eqn:E; simpl.
    + rewrite IH. split.
      * intros H v [<-|Hv]; auto.
      * intros H v Hv. apply H. now right.
    + split; [discriminate|]. intros H.
      rewrite (H a (or_introl eq_refl)) in E. discriminate.
Qed.

(** C5, as amended.  When a required variable is unset or empty, there is
    a first one in the order of the tests, and the handler of [index.js]
    does this: for a subject of exactly 7 segments it logs that it cannot
    locate that variable, gives the same message to [context.done], makes
    no network call, and ends with its closing [context.done()]; for any
    other subject it does not read the environment, logs nothing and only
    calls [context.done()]. *)
Theorem missing_variable_stops_the_handler (w : World) (context : Context)
  (eventGridEvent : EventGridEvent) (variable : string) :
  In variable requiredVariables ->
  truthyStr (lookup (processEnv w) variable) = false ->
  let t := Index.handler w context eventGridEvent in
  exists v,
    firstMissing requiredVariables (processEnv w) = Some v
    /\ (List.length (JsString.split "/" (subject eventGridEvent)) = 7 ->
        t = [LogError (unableToLocate v); Done (Some (unableToLocate v));
             Done None])
    /\ (List.length (JsString.split "/" (subject eventGridEvent)) <> 7 ->
        t = [Done None])
    /\ existsb isNetworkCall t = false.
Proof.
  intros Hin Hunset t. subst t.
  destruct (firstMissing requiredVariables (processEnv w)) as [v|] eqn:Hv.
  - exists v. split; [reflexivity|].
    unfold Index.handler.
    destruct (Nat.eqb_spec
                (List.length (JsString.split "/" (subject eventGridEvent))) 7)
      as [E|E].
    + destruct (pop _) as [fileBlobName subjectVal].
      rewrite index_configuration, Hv.
      repeat split. intros Hne. contradiction.
    + repeat split. intros Heq. contradiction.
  - exfalso.
    rewrite (proj1 (firstMissing_None _ _) Hv variable Hin) in Hunset.
    discriminate.
Qed.

Lemma missing_variable_stops_the_handler_witness :
  let w := sampleWorld [("StorageConStr", "UseDevelopmentStorage=true");
                        ("ENV_RDP_PORT", "8085")]
             (FetchOk None) (ResponseEnd 200 []) in
  Index.handler w sampleContext (sampleEvent sampleSubject)
  = [LogError "Unable to locate environment variable ENV_RDP_HOST";
     Done (Some "Unable to locate environment variable ENV_RDP_HOST");
     Done None]
  /\ Index.handler w sampleContext (sampleEvent "/containers/assets")
     = [Done None].
Proof.
  intros w.
  destruct (missing_variable_stops_the_handler w sampleContext
              (sampleEvent sampleSubject) "ENV_CLIENT_ID")
    as (v & Hv & Hseven & _); [simpl; tauto|reflexivity|].
  destruct (missing_variable_stops_the_handler w sampleContext
              (sampleEvent "/containers/assets") "ENV_CLIENT_ID")
    as (v' & _ & _ & Hother & _); [simpl; tauto|reflexivity|].
  injection Hv as <-.
  split; [apply Hseven; reflexivity|apply Hother; discriminate].
Defined.

(** X5.  [getEnvironmentConfiguration] reports the first variable, in the
    order of its tests, that is unset or empty: it logs that it cannot
    locate it, gives the same message to [context.done] and returns
    [null].  When none is, it does nothing but return the configuration,
    whose five properties are the values of the five [ENV_] variables.
    This holds of [index.js], which tests [StorageConStr] first, and of
    the earlier handler, which does not test it. *)
Theorem configuration_reports_first_missing (env : Obj string) :
  Index.getEnvironmentConfiguration env
  = match firstMissing requiredVariables env with
    | Some v =>
        ([LogError (unableToLocate v); Done (Some (unableToLocate v))], None)
    | None => ([], Some (configurationOf env))
    end
  /\ Variant.getEnvironmentConfiguration env
     = match firstMissing variantVariables env with
       | Some v =>
           ([LogError (unableToLocate v); Done (Some (unableToLocate v))],
            None)
       | None => ([], Some (configurationOf env))
       end.
Proof.
  split; [apply index_configuration|apply variant_configuration].
Qed.

Lemma firstMissing_required env :
  firstMissing requiredVariables env
  = if truthyStr (lookup env "StorageConStr")
    then firstMissing variantVariables env
    else Some "StorageConStr".
Proof.
  unfold firstMissing. simpl.
  now destruct (truthyStr (lookup env "StorageConStr")).
Qed.

(** X6.  A configuration that [index.js] accepts is accepted by the
    earlier handler, with the same result; and one the earlier handler
    accepts is accepted by [index.js] as soon as [StorageConStr] is set to
    a non-empty string. *)
Theorem configurations_agree (env : Obj string) (envConfig : Obj string)
  (logged : list Action) :
  (Index.getEnvironmentConfiguration env = (logged, Some envConfig) ->
   Variant.getEnvironmentConfiguration env = ([], Some envConfig))
  /\ (Variant.getEnvironmentConfiguration env = (logged, Some envConfig) ->
      truthyStr (lookup env "StorageConStr") = true ->
      Index.getEnvironmentConfiguration env = ([], Some envConfig)).
Proof.
  rewrite index_configuration, variant_configuration, firstMissing_required.
  split.
  - destruct (truthyStr (lookup env "StorageConStr")); [|discriminate].
    destruct (firstMissing variantVariables env); [discriminate|].
    intros H. injection H as _ <-. reflexivity.
  - intros H ->.
    destruct (firstMissing variantVariables env); [discriminate|].
    injection H as _ <-. reflexivity.
Qed.

Lemma configurations_agree_witness :
  Variant.getEnvironmentConfiguration sampleEnv = ([], Some sampleConfig)
  /\ Index.getEnvironmentConfiguration sampleEnv = ([], Some sampleConfig).
Proof.
  split.
  - apply (proj1 (configurations_agree sampleEnv sampleConfig [])).
    reflexivity.
  - apply (proj2 (configurations_agree sampleEnv sampleConfig []));
      reflexivity.
Defined.

(** ** The handler of [index.js], as a whole *)

Lemma split_length sep s :
  List.length (JsString.split sep s) = S (countChar sep s).
Proof.
  induction s as [|c s IH]; simpl; [reflexivity|].
  destruct (Ascii.eqb c sep); simpl; [now rewrite IH|].
  destruct (JsString.split sep s); simpl in *; [discriminate|exact IH].
Qed.

(** X7.  The handler of [index.js] never uses the storage service and never
    sends an HTTP request: the query is guarded by
    [envConfig.StorageConStr], a property the configuration object does not
    have.  With every required variable set, it does nothing but call
    [context.done()], whatever the subject, the blob and the server. *)
Theorem index_handler_never_uses_storage (w : World) (context : Context)
  (eventGridEvent : EventGridEvent) :
  let t := Index.handler w context eventGridEvent in
  existsb isStorageUse t = false
  /\ existsb isHttpCall t = false
  /\ ((forall v, In v requiredVariables ->
                 truthyStr (lookup (processEnv w) v) = true) ->
      t = [Done None]).
Proof.
  unfold Index.handler.
  destruct (List.length _ =? 7)%nat; [|simpl; auto].
  destruct (pop _) as [fileBlobName subjectVal].
  rewrite index_configuration.
  destruct (firstMissing requiredVariables (processEnv w)) as [v|] eqn:E.
  - split; [reflexivity|split; [reflexivity|]].
    intros Hall. apply firstMissing_None in Hall. congruence.
  - simpl. auto.
Qed.

Lemma index_handler_never_uses_storage_witness :
  Index.handler
    (sampleWorld sampleEnv
       (FetchOk (Some (sampleBlob [("x_rdp_tenantid", "T1")])))
       (ResponseEnd 200 (sampleChunks "Success")))
    sampleContext (sampleEvent sampleSubject)
  = [Done None].
Proof.
  apply (index_handler_never_uses_storage
           (sampleWorld sampleEnv
              (FetchOk (Some (sampleBlob [("x_rdp_tenantid", "T1")])))
              (ResponseEnd 200 (sampleChunks "Success")))
           sampleContext (sampleEvent sampleSubject)).
  apply firstMissing_None. reflexivity.
Defined.

(** X8.  The handler of [index.js] reads the environment exactly for the
    subjects that have six slashes: when a required variable is unset or
    empty, the invocation is failed if and only if the subject has six
    slashes. *)
Theorem environment_is_read_for_six_slashes (w : World) (context : Context)
  (eventGridEvent : EventGridEvent) (variable : string) :
  In variable requiredVariables ->
  truthyStr (lookup (processEnv w) variable) = false ->
  existsb isFailure (Index.handler w context eventGridEvent) = true
  <-> countChar "/" (subject eventGridEvent) = 6.
Proof.
  intros Hin Hunset. unfold Index.handler.
  rewrite split_length.
  destruct (Nat.eqb_spec (S (countChar "/" (subject eventGridEvent))) 7)
    as [E|E].
  - destruct (pop _) as [fileBlobName subjectVal].
    rewrite index_configuration.
    destruct (firstMissing requiredVariables (processEnv w)) as [v|] eqn:Hm.
    + simpl. split; [lia|reflexivity].
    + exfalso.
      rewrite (proj1 (firstMissing_None _ _) Hm variable Hin) in Hunset.
      discriminate.
  - simpl. split; [discriminate|lia].
Qed.

Lemma environment_is_read_for_six_slashes_witness :
  existsb isFailure
    (Index.handler (sampleWorld [] (FetchOk None) (ResponseEnd 200 []))
       sampleContext (sampleEvent sampleSubject))
  = true.
Proof.
  apply (proj2 (environment_is_read_for_six_slashes
                  (sampleWorld [] (FetchOk None) (ResponseEnd 200 []))
                  sampleContext (sampleEvent sampleSubject) "ENV_RDP_HOST"
                  (or_intror (or_introl eq_refl)) eq_refl)).
  reflexivity.
Defined.

(** ** [createRequestHeaders] and [getHttpRequestOptions] *)



Lemma accepted_configuration env logged envConfig :
  Index.getEnvironmentConfiguration env = (logged, Some envConfig)
  \/ Variant.getEnvironmentConfiguration env = (logged, Some envConfig) ->
  envConfig = configurationOf env
  /\ forall v, In v variantVariables -> truthyStr (lookup env v) = true.
Proof.
  rewrite index_configuration, variant_configuration, firstMissing_required.
  intros [H|H].
  - destruct (truthyStr (lookup env "StorageConStr")); [|discriminate].
    destruct (firstMissing variantVariables env) eqn:E; [discriminate|].
    injection H as _ <-. split; [reflexivity|]. now apply firstMissing_None.
  - destruct (firstMissing variantVariables env) eqn:E; [discriminate|].
    injection H as _ <-. split; [reflexivity|]. now apply firstMissing_None.
Qed.



(** X10.  The request goes to the host and the port of the environment,
    by POST, on the path made of the tenant id of the normalized metadata
    between [/] and [/api/binarystreamobjectservice/create]; the ownership
    header does not change that. *)
Theorem request_is_addressed_to_the_tenant (env : Obj string)
  (logged : list Action) (envConfig blobMetadata : Obj string)
  (tenantId : string) :
  Index.getEnvironmentConfiguration env = (logged, Some envConfig)
  \/ Variant.getEnvironmentConfiguration env = (logged, Some envConfig) ->
  lookup blobMetadata "x-rdp-tenantid" = Some tenantId ->
  let options :=
    getHttpRequestOptions envConfig
      (createRequestHeaders envConfig blobMetadata) in
  protocol options = "http:"
  /\ host options = lookup env "ENV_RDP_HOST"
  /\ port options = lookup env "ENV_RDP_PORT"
  /\ method options = "POST"
  /\ path options
     = ("/" ++ tenantId ++ "/api/binarystreamobjectservice/create")%string.
Proof.
  intros Hcfg Htenant.
  apply accepted_configuration in Hcfg as [-> Hset].
  assert (Hhost : Some (toStr (lookup env "ENV_RDP_HOST"))
                  = lookup env "ENV_RDP_HOST").
  { assert (H : truthyStr (lookup env "ENV_RDP_HOST") = true)
      by (apply Hset; simpl; tauto).
    destruct (lookup env "ENV_RDP_HOST"); [reflexivity|discriminate]. }
  assert (Hport : Some (toStr (lookup env "ENV_RDP_PORT"))
                  = lookup env "ENV_RDP_PORT").
  { assert (H : truthyStr (lookup env "ENV_RDP_PORT") = true)
      by (apply Hset; simpl; tauto).
    destruct (lookup env "ENV_RDP_PORT"); [reflexivity|discriminate]. }
  unfold getHttpRequestOptions. cbn [protocol host port method path].
  repeat split; try assumption.
  unfold createRequestHeaders.
  destruct (truthyStr (lookup blobMetadata "x-rdp-ownershipdata"));
    unfold header; cbn [set lookup String.eqb Ascii.eqb Bool.eqb];
    now rewrite Htenant.
Qed.

Lemma request_is_addressed_to_the_tenant_witness :
  path (getHttpRequestOptions sampleConfig
          (createRequestHeaders sampleConfig
             [("x-rdp-tenantid", "T1"); ("x-rdp-ownershipdata", "o")]))
  = "/T1/api/binarystreamobjectservice/create".
Proof.
  apply (request_is_addressed_to_the_tenant sampleEnv [] sampleConfig
           [("x-rdp-tenantid", "T1"); ("x-rdp-ownershipdata", "o")] "T1"
           (or_introl eq_refl) eq_refl).
Defined.

(** X11.  The tenant header is the value of the last metadata entry whose
    key normalizes to [x-rdp-tenantid], be it written [x_rdp_tenantid],
    [x-rdp-tenantid] or with capitals after the prefix. *)
Theorem tenant_header_comes_from_the_metadata (envConfig : Obj string)
  (r : BlobMetadataResult) :
  header (createRequestHeaders envConfig (getBlobMetadata r)) "x-rdp-tenantId"
  = option_map snd
      (find (normalizesTo "x-rdp-tenantid") (rev (metadata r))).
Proof.
  unfold getBlobMetadata. rewrite <- normalize_lookup_last.
  unfold createRequestHeaders.
  destruct (truthyStr (lookup (normalize (metadata r)) "x-rdp-ownershipdata"));
    unfold header; cbn [set lookup String.eqb Ascii.eqb Bool.eqb];
    reflexivity.
Qed.

(** ** [buildBinaryStreamObject], further *)

Lemma last_split_has_no_separator sep s :
  countChar sep (last (JsString.split sep s) EmptyString) = 0.
Proof.
  induction s as [|c s IH]; simpl; [reflexivity|].
  destruct (Ascii.eqb c sep) eqn:E.
  - destruct (JsString.split sep s) as [|seg rest] eqn:Hs; [reflexivity|].
    exact IH.
  - destruct (JsString.split sep s) as [|seg rest] eqn:Hs.
    + simpl. now rewrite E.
    + destruct rest as [|x rest']; [|exact IH].
      simpl in *. now rewrite E, IH.
Qed.

Lemma countChar_app c s t :
  countChar c (s ++ t) = countChar c s + countChar c t.
Proof.
  induction s as [|a s IH]; simpl; [reflexivity|]. rewrite IH. lia.
Qed.

(** A string is its last segment preceded by nothing, when it has one
    segment, or by something that ends with the separator. *)
Lemma last_split_is_a_suffix sep s :
  exists dir,
    s = (dir ++ last (JsString.split sep s) EmptyString)%string
    /\ (List.length (JsString.split sep s) = 1 -> dir = EmptyString)
    /\ (dir = EmptyString
        \/ exists d0, dir = (d0 ++ String sep EmptyString)%string).
Proof.
  induction s as [|c s (dir & IH & Hone & Hend)]; simpl;
    [exists EmptyString; auto|].
  destruct (Ascii.eqb_spec c sep) as [->|Hc].
  - exists (String sep dir).
    destruct (JsString.split sep s) as [|seg rest] eqn:Hs.
    + exfalso. apply (f_equal (@List.length string)) in Hs.
      rewrite split_length in Hs. discriminate.
    + split; [|split; [discriminate|]].
      * change (last (EmptyString :: seg :: rest) EmptyString)
          with (last (seg :: rest) EmptyString).
        cbn [append]. f_equal. exact IH.
      * right. destruct Hend as [->|[d0 ->]].
        -- now exists EmptyString.
        -- now exists (String sep d0).
  - destruct (JsString.split sep s) as [|seg rest] eqn:Hs.
    + exfalso. apply (f_equal (@List.length string)) in Hs.
      rewrite split_length in Hs. discriminate.
    + destruct rest as [|x rest'].
      * exists EmptyString. simpl in *.
        rewrite (Hone eq_refl) in IH. simpl in IH.
        rewrite <- IH. auto.
      * exists (String c dir). split; [|split; [discriminate|]].
        -- change (last (String c seg :: x :: rest') EmptyString)
             with (last (seg :: x :: rest') EmptyString).
           cbn [append]. f_equal. exact IH.
        -- right. destruct Hend as [->|[d0 ->]].
           ++ exfalso. cbn [append] in IH.
              pose proof (last_split_has_no_separator sep s) as Hno.
              rewrite Hs in Hno. rewrite <- IH in Hno.
              pose proof (split_length sep s) as Hlen.
              rewrite Hno, Hs in Hlen. discriminate.
           ++ now exists (String c d0).
Qed.

Lemma lookup_delete_Some (V : Type) (o : Obj V) k k' v :
  lookup (delete o k') k = Some v -> lookup o k = Some v /\ k <> k'.
Proof.
  intros H. destruct (String.eqb_spec k k') as [->|Hne].
  - now rewrite lookup_delete_eq in H.
  - rewrite lookup_delete_ne in H by congruence. auto.
Qed.

(** X12.  In every descriptor that is built, the properties it declares
    are those of the blob, the event and the headers, whatever the
    metadata hold: a metadata entry named like one of them does not
    replace it.  [ownershipData] is the header's when the header has a
    value, and otherwise the metadata entry of that name, if there is
    one. *)
Theorem metadata_cannot_override_declared_properties (context : Context)
  (eventGridEvent : EventGridEvent) (blobMetadataResult : BlobMetadataResult)
  (headers : Obj (option string)) (d : BinaryStreamObject) :
  fst (buildBinaryStreamObject context eventGridEvent blobMetadataResult
         headers) = Value d ->
  let props := properties d in
  lookup props "objectKey" = Some (JSString (name blobMetadataResult))
  /\ lookup props "fullObjectPath" = Some (JSString (name blobMetadataResult))
  /\ lookup props "originalFileName"
     = Some (JSString (assignedOriginalFileName blobMetadataResult))
  /\ lookup props "contentSize" = Some (contentLength (data eventGridEvent))
  /\ lookup props "user" = Some (ofStr (header headers "x-rdp-userId"))
  /\ lookup props "role" = Some (ofStr (header headers "x-rdp-userRoles"))
  /\ lookup props "ownershipData"
     = if truthyStr (header headers "x-rdp-ownershipData")
       then Some (ofStr (header headers "x-rdp-ownershipData"))
       else option_map JSString
              (lookup (metadata blobMetadataResult) "ownershipData").
Proof.
  intros Hd props. subst props.
  apply built_descriptor in Hd as (_ & _ & Hprops).
  repeat split;
    rewrite (applyMetadata_lookup _ _ _ _ Hprops);
    try (rewrite declaredProperties_lookup by discriminate; reflexivity).
  unfold declaredProperties, addOwnershipData.
  destruct (truthyStr (header headers "x-rdp-ownershipData")).
  - now rewrite lookup_set_eq.
  - cbn [initialProperties lookup String.eqb Ascii.eqb Bool.eqb].
    cbn [JsString.includes JsString.startsWith Ascii.eqb Bool.eqb orb andb].
    now rewrite remainingMetadata_lookup by discriminate.
Qed.

Lemma metadata_cannot_override_declared_properties_witness :
  exists d,
    fst (buildBinaryStreamObject sampleContext (sampleEvent sampleSubject)
           (sampleBlob [("objectKey", "other"); ("role", "root")]) [])
    = Value d
    /\ lookup (properties d) "objectKey" = Some (JSString "photo.jpg")
    /\ lookup (properties d) "role" = Some JSUndefined.
Proof.
  eexists. split; [reflexivity|].
  split.
  - apply (metadata_cannot_override_declared_properties sampleContext
             (sampleEvent sampleSubject)
             (sampleBlob [("objectKey", "other"); ("role", "root")]) [] _
             eq_refl).
  - apply (metadata_cannot_override_declared_properties sampleContext
             (sampleEvent sampleSubject)
             (sampleBlob [("objectKey", "other"); ("role", "root")]) [] _
             eq_refl).
Defined.

(** X13.  Every property of a descriptor that is built is one it declares
    or the string value of a metadata entry of the same name, a name that
    does not contain [x-rdp]. *)
Theorem properties_are_declared_or_copied (context : Context)
  (eventGridEvent : EventGridEvent) (blobMetadataResult : BlobMetadataResult)
  (headers : Obj (option string)) (d : BinaryStreamObject)
  (k : string) (x : JSValue) :
  fst (buildBinaryStreamObject context eventGridEvent blobMetadataResult
         headers) = Value d ->
  lookup (properties d) k = Some x ->
  lookup (declaredProperties eventGridEvent blobMetadataResult headers) k
  = Some x
  \/ exists v,
       lookup (metadata blobMetadataResult) k = Some v
       /\ x = JSString v
       /\ JsString.includes "x-rdp" k = false.
Proof.
  intros Hd. apply built_descriptor in Hd as (_ & _ & Hprops).
  rewrite (applyMetadata_lookup _ _ _ _ Hprops).
  destruct (lookup (declaredProperties _ _ _) k) as [y|]; [now left|].
  destruct (JsString.includes "x-rdp" k); [discriminate|].
  destruct (lookup (remainingMetadata _) k) as [v|] eqn:Hv; [|discriminate].
  intros H. injection H as <-. right. exists v. repeat split.
  unfold remainingMetadata in Hv.
  destruct (truthyStr _); [|exact Hv].
  now apply lookup_delete_Some in Hv.
Qed.

Lemma properties_are_declared_or_copied_witness :
  lookup (declaredProperties (sampleEvent sampleSubject)
            (sampleBlob [("color", "red")]) []) "color"
  = Some (JSString "red")
  \/ exists v,
       lookup (metadata (sampleBlob [("color", "red")])) "color" = Some v
       /\ JSString "red" = JSString v
       /\ JsString.includes "x-rdp" "color" = false.
Proof.
  apply (properties_are_declared_or_copied sampleContext
           (sampleEvent sampleSubject) (sampleBlob [("color", "red")]) []
           _ "color" (JSString "red") eq_refl).
  reflexivity.
Defined.

(** X14.  Without a non-empty [originalfilename] in the metadata, the
    original file name is the end of the blob name after its last slash:
    it has no slash, and the blob name is it alone or it after a part that
    ends with a slash.  It is the [originalFileName] of every descriptor
    that is built. *)
Theorem file_name_falls_back_on_the_blob_name (context : Context)
  (eventGridEvent : EventGridEvent) (blobMetadataResult : BlobMetadataResult)
  (headers : Obj (option string)) :
  truthyStr (lookup (metadata blobMetadataResult) "originalfilename")
  = false ->
  exists dir fileName,
    assignedOriginalFileName blobMetadataResult = fileName
    /\ name blobMetadataResult = (dir ++ fileName)%string
    /\ countChar "/" fileName = 0
    /\ (dir = EmptyString \/ exists d0, dir = (d0 ++ "/")%string)
    /\ (forall d,
          fst (buildBinaryStreamObject context eventGridEvent
                 blobMetadataResult headers) = Value d ->
          lookup (properties d) "originalFileName"
          = Some (JSString fileName)).
Proof.
  intros Hnone.
  destruct (last_split_is_a_suffix "/" (name blobMetadataResult))
    as (dir & Hdir & _ & Hend).
  assert (Hassigned :
            assignedOriginalFileName blobMetadataResult
            = last (JsString.split "/" (name blobMetadataResult))
                EmptyString).
  { unfold assignedOriginalFileName. now rewrite Hnone. }
  exists dir, (last (JsString.split "/" (name blobMetadataResult)) EmptyString).
  repeat split.
  - exact Hassigned.
  - exact Hdir.
  - apply last_split_has_no_separator.
  - exact Hend.
  - intros d Hd. apply built_descriptor in Hd as (_ & _ & Hprops).
    rewrite (applyMetadata_lookup _ _ _ _ Hprops).
    rewrite declaredProperties_lookup by discriminate.
    cbn [initialProperties lookup String.eqb Ascii.eqb Bool.eqb].
    now rewrite Hassigned.
Qed.

Lemma file_name_falls_back_on_the_blob_name_witness :
  let r := {| name := "renditions/2018/photo.jpg";
              metadata := [("originalfilename", EmptyString)] |} in
  exists dir fileName,
    assignedOriginalFileName r = fileName
    /\ name r = (dir ++ fileName)%string
    /\ countChar "/" fileName = 0
    /\ (dir = EmptyString \/ exists d0, dir = (d0 ++ "/")%string)
    /\ (forall d,
          fst (buildBinaryStreamObject sampleContext
                 (sampleEvent sampleSubject) r []) = Value d ->
          lookup (properties d) "originalFileName"
          = Some (JSString fileName)).
Proof.
  intros r.
  apply (file_name_falls_back_on_the_blob_name sampleContext
           (sampleEvent sampleSubject) r []).
  reflexivity.
Defined.

(** X15.  [buildBinaryStreamObject] changes the metadata object it is
    given in one way only, whether it returns or throws: when
    [originalfilename] has a non-empty value, the object it leaves is the
    one it was given without that entry, the others in their order; in
    any other case, an empty [originalfilename] included, it is the one it
    was given.  A second call on the same object therefore takes the
    original file name from the blob name. *)
Theorem build_deletes_only_the_original_file_name (context : Context)
  (eventGridEvent : EventGridEvent) (blobMetadataResult : BlobMetadataResult)
  (headers : Obj (option string)) :
  let left := snd (buildBinaryStreamObject context eventGridEvent
                     blobMetadataResult headers) in
  name left = name blobMetadataResult
  /\ (truthyStr (lookup (metadata blobMetadataResult) "originalfilename")
      = true ->
      metadata left
      = filter (fun p => negb (String.eqb (fst p) "originalfilename"))
          (metadata blobMetadataResult))
  /\ (truthyStr (lookup (metadata blobMetadataResult) "originalfilename")
      = false ->
      left = blobMetadataResult)
  /\ assignedOriginalFileName left
     = last (JsString.split "/" (name blobMetadataResult)) EmptyString.
Proof.
  intros left. subst left.
  unfold buildBinaryStreamObject. cbn [snd name metadata].
  unfold remainingMetadata, assignedOriginalFileName. cbn [name metadata].
  destruct (truthyStr (lookup (metadata blobMetadataResult)
                         "originalfilename")) eqn:E.
  - repeat split; try discriminate.
    now rewrite lookup_delete_eq.
  - repeat split; try discriminate.
    + intros _. now destruct blobMetadataResult.
    + now rewrite E.
Qed.

Lemma build_deletes_only_the_original_file_name_witness :
  metadata (snd (buildBinaryStreamObject sampleContext
                   (sampleEvent sampleSubject)
                   (sampleBlob [("color", "red"); ("originalfilename", "f.jpg");
                                ("hasOwnProperty", "x"); ("size", "2")]) []))
  = [("color", "red"); ("hasOwnProperty", "x"); ("size", "2")]
  /\ snd (buildBinaryStreamObject sampleContext (sampleEvent sampleSubject)
            (sampleBlob [("originalfilename", EmptyString)]) [])
     = sampleBlob [("originalfilename", EmptyString)].
Proof.
  split.
  - apply (proj1 (proj2 (build_deletes_only_the_original_file_name
             sampleContext (sampleEvent sampleSubject)
             (sampleBlob [("color", "red"); ("originalfilename", "f.jpg");
                          ("hasOwnProperty", "x"); ("size", "2")]) []))).
    reflexivity.
  - apply (proj1 (proj2 (proj2 (build_deletes_only_the_original_file_name
             sampleContext (sampleEvent sampleSubject)
             (sampleBlob [("originalfilename", EmptyString)]) [])))).
    reflexivity.
Defined.

Lemma normalized_keys_are_lowercase_and_distinct_witness :
  JsString.toLowerCase "x-rdp-tenantid" = "x-rdp-tenantid"
  /\ exists k0,
       In k0 (keys (metadata (sampleBlob [("X_rdp_x", "1");
                                          ("x_rdp_TenantId", "T1")])))
       /\ normalizeKey k0 = "x-rdp-tenantid".
Proof.
  apply (proj2 (normalized_keys_are_lowercase_and_distinct
                  (sampleBlob [("X_rdp_x", "1"); ("x_rdp_TenantId", "T1")]))
           "x-rdp-tenantid").
  simpl. tauto.
Defined.

(** ** [postBinaryStreamObject], further *)

Lemma truthy_string_iff s :
  truthy (JSString s) = true <-> s <> EmptyString.
Proof.
  simpl. destruct (String.eqb_spec s EmptyString); split; intros H;
    congruence || discriminate || reflexivity.
Qed.

(** X16.  How the submitter fails.  A status code other than 200, or an
    empty body, is reported by [context.log.error] and
    [context.done(errorMsg)] without the body being parsed.  A non-empty
    body of a 200 response that [JSON.parse] rejects is not reported: the
    listener throws and [context.done] is never called; nor is it when the
    parsed [response.status] is a value other than a string that is not
    falsy, on which [toLowerCase] is not a function. *)
Theorem submitter_failure_modes (w : World) (envConfig : Obj string)
  (headers : Obj (option string)) (binaryStreamObject : BinaryStreamObject)
  (statusCode : Z) (chunks : list string) :
  httpReply w = ResponseEnd statusCode chunks ->
  let request :=
    HttpRequest (getHttpRequestOptions envConfig headers)
      binaryStreamObject in
  let t := postBinaryStreamObject w isDebugEnabled envConfig headers
             binaryStreamObject in
  (statusCode <> 200%Z \/ received chunks = EmptyString ->
   t = [request; LogError restFailure; Done (Some restFailure)])
  /\ (statusCode = 200%Z ->
      received chunks <> EmptyString ->
      JSON_parse w (received chunks) = None ->
      t = [request; Uncaught SyntaxError])
  /\ (forall responseJson,
        statusCode = 200%Z ->
        received chunks <> EmptyString ->
        JSON_parse w (received chunks) = Some responseJson ->
        truthy (responseStatus responseJson) = true ->
        (forall s, responseStatus responseJson <> JSString s) ->
        t = [request; Uncaught TypeError]).
Proof.
  intros Hreply request t. subst request t.
  unfold postBinaryStreamObject, onEnd. rewrite Hreply. simpl.
  unfold isSuccessfull. split; [|split].
  - intros [Hcode|Hbody].
    + apply Z.eqb_neq in Hcode. now rewrite Hcode.
    + rewrite Hbody, andb_false_r. reflexivity.
  - intros -> Hbody Hparse.
    apply truthy_string_iff in Hbody. now rewrite Hbody, Hparse.
  - intros responseJson -> Hbody Hparse Htruthy Hnot.
    apply truthy_string_iff in Hbody. rewrite Hbody, Hparse. simpl.
    unfold responseStatus in *.
    destruct responseJson; try discriminate.
    destruct (prop (JSObject props) "response"); try discriminate.
    rewrite Htruthy.
    destruct (prop (JSObject props0) "status"); try reflexivity.
    exfalso. now apply (Hnot s).
Qed.

Lemma submitter_failure_modes_witness :
  let d := sampleDescriptor in
  postBinaryStreamObject
    (sampleWorld sampleEnv (FetchOk None) (ResponseEnd 200 ["<html>"]))
    isDebugEnabled sampleConfig [] d
  = [HttpRequest (getHttpRequestOptions sampleConfig []) d;
     Uncaught SyntaxError].
Proof.
  intros d.
  apply (proj1 (proj2 (submitter_failure_modes
           (sampleWorld sampleEnv (FetchOk None) (ResponseEnd 200 ["<html>"]))
           sampleConfig [] d 200 ["<html>"] eq_refl)));
    [reflexivity|discriminate|reflexivity].
Defined.

(** X17.  Whatever the response, the submitter sends one request, first,
    and ends the invocation once: after the request there is no other
    network call, and exactly one [context.done] or uncaught exception,
    which comes last. *)
Theorem submitter_sends_once_and_ends_once (w : World) (logResponse : bool)
  (envConfig : Obj string) (headers : Obj (option string))
  (binaryStreamObject : BinaryStreamObject) :
  isResponse (httpReply w) = true ->
  exists rest final,
    postBinaryStreamObject w logResponse envConfig headers binaryStreamObject
    = HttpRequest (getHttpRequestOptions envConfig headers)
        binaryStreamObject :: rest ++ [final]
    /\ existsb isNetworkCall rest = false
    /\ existsb isTerminal rest = false
    /\ isNetworkCall final = false
    /\ isTerminal final = true.
Proof.
  unfold postBinaryStreamObject.
  destruct (httpReply w) as [|e|e|statusCode chunks]; try discriminate;
    intros _.
  - eexists [_], _. split; [reflexivity|]. auto.
  - unfold onEnd.
    destruct (isSuccessfull _ _ _) as [[|]|e];
      destruct (logResponse && _);
      (eexists [], _ + eexists [_], _ + eexists [_; _], _);
      (split; [reflexivity|]); auto.
Qed.

Lemma submitter_sends_once_and_ends_once_witness :
  exists rest final,
    postBinaryStreamObject
      (sampleWorld sampleEnv (FetchOk None) (ResponseEnd 500 ["oops"]))
      true sampleConfig [] sampleDescriptor
    = HttpRequest (getHttpRequestOptions sampleConfig []) sampleDescriptor
      :: rest ++ [final]
    /\ existsb isNetworkCall rest = false
    /\ existsb isTerminal rest = false
    /\ isNetworkCall final = false
    /\ isTerminal final = true.
Proof.
  apply (submitter_sends_once_and_ends_once
           (sampleWorld sampleEnv (FetchOk None) (ResponseEnd 500 ["oops"]))
           true sampleConfig [] sampleDescriptor).
  reflexivity.
Defined.

(** ** The metadata callbacks *)

Lemma post_makes_a_call w logResponse envConfig headers binaryStreamObject :
  existsb isHttpCall
    (postBinaryStreamObject w logResponse envConfig headers
       binaryStreamObject)
  = match httpReply w with RequestThrows => false | _ => true end.
Proof.
  unfold postBinaryStreamObject. now destruct (httpReply w).
Qed.

(** X18.  The metadata callback of [index.js] sends the HTTP request
    exactly when the query succeeded with a result whose normalized
    metadata have a non-empty [x-rdp-tenantid], the descriptor is built
    from it, and [http.request] does not throw; what it then does is what
    [postBinaryStreamObject] does with the headers and that descriptor.  A
    failed query, a null result, and a tenant id that is absent or empty
    lead to no request; a descriptor that is not built leads to the
    uncaught exception alone. *)
Theorem callback_posts_iff_tenant (w : World) (context : Context)
  (eventGridEvent : EventGridEvent) (envConfig : Obj string)
  (subjectVal : list string) (reply : StorageReply) :
  let t := Index.metadataCallback w context eventGridEvent envConfig
             subjectVal reply in
  let built r :=
    fst (buildBinaryStreamObject context eventGridEvent r
           (createRequestHeaders envConfig (getBlobMetadata r))) in
  (existsb isHttpCall t = true <->
   exists r d,
     reply = FetchOk (Some r)
     /\ truthyStr (lookup (getBlobMetadata r) "x-rdp-tenantid") = true
     /\ built r = Value d
     /\ httpReply w <> RequestThrows)
  /\ (forall r d,
        reply = FetchOk (Some r) ->
        truthyStr (lookup (getBlobMetadata r) "x-rdp-tenantid") = true ->
        built r = Value d ->
        t = postBinaryStreamObject w isDebugEnabled envConfig
              (createRequestHeaders envConfig (getBlobMetadata r)) d)
  /\ (forall r e,
        reply = FetchOk (Some r) ->
        truthyStr (lookup (getBlobMetadata r) "x-rdp-tenantid") = true ->
        built r = Thrown e ->
        t = [Uncaught e]).
Proof.
  intros t built. subst t built. unfold Index.metadataCallback.
  split; [|split].
  - destruct reply as [e|[r|]].
    + split; [discriminate|]. intros (r & d & H & _). discriminate.
    + destruct (truthyStr (lookup (getBlobMetadata r) "x-rdp-tenantid"))
        eqn:E.
      * destruct (fst (buildBinaryStreamObject context eventGridEvent r _))
          as [d|e] eqn:Hd.
        -- rewrite post_makes_a_call. split.
           ++ intros Hcall. exists r, d. repeat split; try assumption.
              intros Hthrows. rewrite Hthrows in Hcall. discriminate.
           ++ intros (r' & d' & _ & _ & _ & Hnot).
              destruct (httpReply w); congruence.
        -- split; [discriminate|].
           intros (r' & d' & H & _ & Hd' & _). injection H as <-. congruence.
      * split; [discriminate|].
        intros (r' & d' & H & Ht & _). injection H as <-. congruence.
    + split; [discriminate|]. intros (r & d & H & _). discriminate.
  - intros r d -> Ht Hd. now rewrite Ht, Hd.
  - intros r e -> Ht Hd. now rewrite Ht, Hd.
Qed.

Lemma callback_posts_iff_tenant_witness :
  existsb isHttpCall
    (Index.metadataCallback
       (sampleWorld sampleEnv (FetchOk None)
          (ResponseEnd 200 (sampleChunks "Success")))
       sampleContext (sampleEvent sampleSubject) sampleConfig []
       (FetchOk (Some (sampleBlob [("x_rdp_tenantid", "T1")]))))
  = true
  /\ Index.metadataCallback
       (sampleWorld sampleEnv (FetchOk None)
          (ResponseEnd 200 (sampleChunks "Success")))
       sampleContext (sampleEvent sampleSubject) sampleConfig []
       (FetchOk (Some (sampleBlob [("x_rdp_tenantid", "T1");
                                   ("hasOwnProperty", "x");
                                   ("color", "red")])))
     = [Uncaught TypeError].
Proof.
  split.
  - apply (proj2 (proj1 (callback_posts_iff_tenant
             (sampleWorld sampleEnv (FetchOk None)
                (ResponseEnd 200 (sampleChunks "Success")))
             sampleContext (sampleEvent sampleSubject) sampleConfig []
             (FetchOk (Some (sampleBlob [("x_rdp_tenantid", "T1")])))))).
    exists (sampleBlob [("x_rdp_tenantid", "T1")]). eexists.
    repeat split. discriminate.
  - apply (proj2 (proj2 (callback_posts_iff_tenant
             (sampleWorld sampleEnv (FetchOk None)
                (ResponseEnd 200 (sampleChunks "Success")))
             sampleContext (sampleEvent sampleSubject) sampleConfig []
             (FetchOk (Some (sampleBlob [("x_rdp_tenantid", "T1");
                                         ("hasOwnProperty", "x");
                                         ("color", "red")])))))
             (sampleBlob [("x_rdp_tenantid", "T1"); ("hasOwnProperty", "x");
                          ("color", "red")]) TypeError);
      reflexivity.
Defined.

(** ** The earlier handler *)



(** X20.  The earlier handler from end to end.  For a subject without
    [/renditions/], a complete environment, a blob whose normalized
    metadata have a non-empty tenant id and from which the descriptor is
    built, and a request answered by a 200 response whose body parses to a
    status that is ["success"] in lower case, the invocation is: the
    query, the request with the headers and that descriptor, the log of
    the response, and [context.done()]. *)
Theorem variant_handler_end_to_end (w : World) (context : Context)
  (eventGridEvent : EventGridEvent) (r : BlobMetadataResult)
  (binaryStreamObject : BinaryStreamObject)
  (chunks : list string) (responseJson : JSValue) (s : string) :
  JsString.includes "/renditions/" (subject eventGridEvent) = false ->
  firstMissing variantVariables (processEnv w) = None ->
  storageReply w = FetchOk (Some r) ->
  truthyStr (lookup (getBlobMetadata r) "x-rdp-tenantid") = true ->
  fst (buildBinaryStreamObject context eventGridEvent r
         (createRequestHeaders (configurationOf (processEnv w))
            (getBlobMetadata r)))
  = Value binaryStreamObject ->
  httpReply w = ResponseEnd 200 chunks ->
  JSON_parse w EmptyString = None ->
  JSON_parse w (received chunks) = Some responseJson ->
  responseStatus responseJson = JSString s ->
  JsString.toLowerCase s = "success" ->
  let envConfig := configurationOf (processEnv w) in
  let headers := createRequestHeaders envConfig (getBlobMetadata r) in
  Variant.handler w context eventGridEvent
  = [GetBlobMetadata (Some variantContainer)
       (fst (pop (JsString.split "/" (url (data eventGridEvent)))));
     HttpRequest (getHttpRequestOptions envConfig headers) binaryStreamObject;
     Log ("Using taskId " ++ value (taskId binaryStreamObject)
          ++ ", RDP API Response: " ++ received chunks) [];
     Done None].
Proof.
  intros Hsubject Henv Hstored Htenant Hbuilt Hreply Hempty Hparse Hstatus
    Hlower envConfig headers.
  unfold Variant.handler. rewrite Hsubject. simpl negb. cbv iota.
  rewrite Hstored. unfold Variant.metadataCallback.
  rewrite variant_configuration, Henv, Htenant, Hbuilt. cbn [app].
  unfold postBinaryStreamObject. rewrite Hreply. unfold onEnd.
  assert (Hbody : truthy (JSString (received chunks)) = true).
  { apply truthy_string_iff. intros E. rewrite E in Hparse. congruence. }
  assert (Hok : isSuccessfull (JSON_parse w) 200 (received chunks)
                = Value true).
  { apply (isSuccessfull_true _ _ _ Hempty). split; [reflexivity|].
    exists responseJson, s. auto. }
  rewrite Hok, Hbody. reflexivity.
Qed.

Lemma variant_handler_end_to_end_witness :
  let w := sampleWorld sampleEnv
             (FetchOk (Some (sampleBlob [("x_rdp_tenantid", "T1")])))
             (ResponseEnd 200 (sampleChunks "Success")) in
  let r := sampleBlob [("x_rdp_tenantid", "T1")] in
  let headers := createRequestHeaders sampleConfig (getBlobMetadata r) in
  let binaryStreamObject :=
    match fst (buildBinaryStreamObject sampleContext
                 (sampleEvent sampleSubject) r headers) with
    | Value d => d
    | Thrown _ => sampleDescriptor
    end in
  fst (buildBinaryStreamObject sampleContext (sampleEvent sampleSubject)
         r headers) = Value binaryStreamObject
  /\ Variant.handler w sampleContext (sampleEvent sampleSubject)
     = [GetBlobMetadata (Some variantContainer) (Some "photo.jpg");
        HttpRequest (getHttpRequestOptions sampleConfig headers)
          binaryStreamObject;
        Log ("Using taskId inv-1, RDP API Response: "
             ++ statusText "Success") [];
        Done None].
Proof.
  intros w r headers binaryStreamObject. split; [reflexivity|].
  exact (variant_handler_end_to_end w sampleContext
           (sampleEvent sampleSubject) r binaryStreamObject
           (sampleChunks "Success") (statusBody "Success") "Success"
           eq_refl eq_refl eq_refl eq_refl eq_refl eq_refl eq_refl eq_refl
           eq_refl eq_refl).
Defined.
